(** * Task tracker: lifecycle store, access policy, audit trail and metrics

    A shallow embedding of the task-tracking application: the PostgreSQL
    schema, row-level-security policies and triggers of the migration, and
    the TypeScript functions of the dashboard components that read and write
    the [tasks] table through the Supabase client.

    Conventions of the model.
    - UUIDs and text columns are strings.
    - A [timestamptz] is an instant in milliseconds since the epoch, the
      value [new Date(s).getTime()] that the components compare.
    - A [date] column is a day number since the epoch; [new Date] on a
      date-only string is UTC midnight of that day.
    - A JavaScript Number is an IEEE-754 binary64 value, taken from the
      Standard Library's executable specification of floating point.
    - A table is the list of its rows in insertion order. *)

From Stdlib Require Import ZArith List String Bool Lia.
From Stdlib Require Import Permutation Sorted QArith Qround.
From Stdlib Require Import Floats.SpecFloat DecimalString.
From Stdlib Require Import Ascii NArith.
Import ListNotations.

Open Scope string_scope.
Open Scope list_scope.
Open Scope Z_scope.

(** ** JavaScript numbers *)

Module JS.

Definition Number := spec_float.

Definition prec : Z := 53.
Definition emax : Z := 1024.

(** The Number denoted by an integer literal or by an array length. *)
Definition of_int (z : Z) : Number := binary_normalize prec emax z 0 false.
Definition of_nat (n : nat) : Number := of_int (Z.of_nat n).

(** [x / y] and [x * y] on Numbers. *)
Definition div (x y : Number) : Number := SFdiv prec emax x y.
Definition mul (x y : Number) : Number := SFmul prec emax x y.

(** [x > y] on Numbers. *)
Definition gt (x y : Number) : bool := SFltb y x.

(** [Math.round]: the integral Number closest to [x], a tie going to the
    one closer to plus infinity.  A Number whose exponent is not negative
    is integral already; NaN, the infinities and the zeros are returned
    unchanged. *)
Definition Math_round (x : Number) : Number :=
  match x with
  | S754_finite s m (Zneg p) =>
      let v := if s then Z.neg m else Z.pos m in
      binary_normalize prec emax
        ((2 * v + 2 ^ Z.pos p) / (2 * 2 ^ Z.pos p)) 0 s
  | _ => x
  end.

End JS.

(** ** Dates *)

Definition uuid := string.
Definition timestamptz := Z.
Definition date := Z.

Definition ms_per_day : Z := 86400000.

(** [new Date(ts)] for a timestamp, as milliseconds since the epoch. *)
Definition Date_of_timestamp (ts : timestamptz) : Z := ts.

(** [new Date(d)] for a date-only string: UTC midnight of that day. *)
Definition Date_of_date (d : date) : Z := d * ms_per_day.

(** ** Schema *)

Inductive user_role := manager | employee.

Inductive task_status := not_started | in_progress | finished.

Definition user_role_eqb (a b : user_role) : bool :=
  match a, b with
  | manager, manager | employee, employee => true
  | _, _ => false
  end.

Definition task_status_eqb (a b : task_status) : bool :=
  match a, b with
  | not_started, not_started
  | in_progress, in_progress
  | finished, finished => true
  | _, _ => false
  end.

Module Profile.
Record row := mk {
  id : uuid;
  user_id : uuid;
  username : string;
  full_name : string;
  title : option string;
  role : user_role;
  position : option string;
  details : option string;
  is_active : bool;
  created_at : timestamptz;
  updated_at : timestamptz
}.
End Profile.

Module Task.
Record row := mk {
  id : uuid;
  title : string;
  description : option string;
  assigned_to : uuid;
  assigned_by : uuid;
  status : task_status;
  start_date : date;
  deadline_date : date;
  completed_at : option timestamptz;
  created_at : timestamptz;
  updated_at : timestamptz
}.

Definition with_completed_at (c : option timestamptz) (t : row) : row :=
  mk (id t) (title t) (description t) (assigned_to t) (assigned_by t)
     (status t) (start_date t) (deadline_date t) c
     (created_at t) (updated_at t).

Definition with_updated_at (u : timestamptz) (t : row) : row :=
  mk (id t) (title t) (description t) (assigned_to t) (assigned_by t)
     (status t) (start_date t) (deadline_date t) (completed_at t)
     (created_at t) u.
End Task.

Module HistoryEntry.
Record row := mk {
  id : uuid;
  task_id : uuid;
  old_status : option task_status;
  new_status : task_status;
  changed_by : uuid;
  changed_at : timestamptz
}.
End HistoryEntry.

Record database := mk_database {
  profiles : list Profile.row;
  tasks : list Task.row;
  task_history : list HistoryEntry.row
}.

(** What a statement sees of the server beside the tables: the caller's
    [auth.uid()], the transaction's [now()] and [gen_random_uuid()], here a
    supply indexed by the size of the table that receives the row. *)
Record session := mk_session {
  auth_uid : option uuid;
  now : timestamptz;
  gen_random_uuid : nat -> uuid
}.

(** ** Statement errors *)

Inductive pg_error :=
| not_null_violation (column : string)
| foreign_key_violation (column : string)
| rls_violation (table : string).

Inductive result (A : Type) :=
| Ok (a : A)
| Err (e : pg_error).
Arguments Ok {A} a.
Arguments Err {A} e.

Definition bind {A B : Type} (r : result A) (k : A -> result B) : result B :=
  match r with
  | Ok a => k a
  | Err e => Err e
  end.

Notation "x <- c ;; k" := (bind c (fun x => k))
  (at level 61, c at next level, right associativity).

Definition guard (b : bool) (e : pg_error) : result unit :=
  if b then Ok tt else Err e.

(** ** Row-level security *)

Module Policy.

(** [EXISTS (SELECT 1 FROM profiles WHERE user_id = auth.uid() AND role =
    'manager')]. *)
Definition is_manager (s : session) (db : database) : bool :=
  match auth_uid s with
  | None => false
  | Some u =>
      existsb (fun p => String.eqb (Profile.user_id p) u
                        && user_role_eqb (Profile.role p) manager)
              (profiles db)
  end.

(** [(SELECT id FROM profiles WHERE user_id = auth.uid())]; [user_id] is
    UNIQUE, so the first match is the only one. *)
Definition own_profile_id (s : session) (db : database) : option uuid :=
  match auth_uid s with
  | None => None
  | Some u =>
      option_map Profile.id
        (find (fun p => String.eqb (Profile.user_id p) u) (profiles db))
  end.

(** [assigned_to = (SELECT id FROM profiles WHERE user_id = auth.uid())]. *)
Definition is_assignee (s : session) (db : database) (t : Task.row) : bool :=
  match own_profile_id s db with
  | None => false
  | Some p => String.eqb (Task.assigned_to t) p
  end.

(** "Users can view their own tasks or managers can view all". *)
Definition tasks_select (s : session) (db : database) (t : Task.row) : bool :=
  is_assignee s db t || is_manager s db.

(** "Managers can insert tasks". *)
Definition tasks_insert (s : session) (db : database) (t : Task.row) : bool :=
  is_manager s db.

(** "Managers can update tasks or employees can update their own status".
    The policy has a USING clause only, which PostgreSQL applies to the
    existing row and, as WITH CHECK, to the updated row. *)
Definition tasks_update (s : session) (db : database) (t : Task.row) : bool :=
  is_manager s db || is_assignee s db t.

(** "All authenticated users can insert task history". *)
Definition task_history_insert (s : session) : bool :=
  match auth_uid s with
  | None => false
  | Some _ => true
  end.

(** "Users can view all profiles". *)
Definition profiles_select (s : session) (db : database) (p : Profile.row)
  : bool := true.

(** "Managers can insert profiles". *)
Definition profiles_insert (s : session) (db : database) (p : Profile.row)
  : bool := is_manager s db.

(** "Users can view task history for their tasks or managers can view
    all": [task_id IN (SELECT id FROM tasks WHERE assigned_to = (SELECT id
    FROM profiles WHERE user_id = auth.uid())) OR EXISTS (...manager...)].
    The rows of [tasks] the subquery selects are rows the caller may see. *)
Definition task_history_select (s : session) (db : database)
    (h : HistoryEntry.row) : bool :=
  existsb (fun t => String.eqb (Task.id t) (HistoryEntry.task_id h)
                    && is_assignee s db t)
          (tasks db)
  || is_manager s db.

End Policy.

(** ** Triggers and statements on the tables *)

(** The SET list of an UPDATE on [tasks]: [None] leaves the column alone. *)
Module Patch.
Record t := mk {
  title : option string;
  description : option (option string);
  assigned_to : option uuid;
  assigned_by : option uuid;
  status : option task_status;
  start_date : option date;
  deadline_date : option date;
  completed_at : option (option timestamptz)
}.

Definition set {A : Type} (new : option A) (old : A) : A :=
  match new with
  | Some v => v
  | None => old
  end.

Definition apply (p : t) (r : Task.row) : Task.row :=
  Task.mk (Task.id r)
          (set (title p) (Task.title r))
          (set (description p) (Task.description r))
          (set (assigned_to p) (Task.assigned_to r))
          (set (assigned_by p) (Task.assigned_by r))
          (set (status p) (Task.status r))
          (set (start_date p) (Task.start_date r))
          (set (deadline_date p) (Task.deadline_date r))
          (set (completed_at p) (Task.completed_at r))
          (Task.created_at r)
          (Task.updated_at r).
End Patch.

Module Store.

(** [REFERENCES public.profiles(id)]. *)
Definition references_profile (db : database) (p : uuid) : bool :=
  existsb (fun q => String.eqb (Profile.id q) p) (profiles db).

(** [INSERT INTO task_history (task_id, old_status, new_status,
    changed_by)]; [id] and [changed_at] take their defaults.  Both
    references hold where the trigger calls it: the task is the row under
    update and [changed_by] was read from [profiles]. *)
Definition insert_task_history (s : session)
    (hist : list HistoryEntry.row) (task_id : uuid)
    (old_status : option task_status) (new_status : task_status)
    (changed_by : option uuid) : result (list HistoryEntry.row) :=
  _ <- guard (Policy.task_history_insert s) (rls_violation "task_history") ;;
  match changed_by with
  | None => Err (not_null_violation "changed_by")
  | Some c =>
      Ok (hist ++ [HistoryEntry.mk (gen_random_uuid s (List.length hist))
                     task_id old_status new_status c (now s)])
  end.

(** [update_updated_at_column()], BEFORE UPDATE on [tasks]. *)
Definition update_updated_at_column (s : session) (NEW : Task.row)
  : Task.row :=
  Task.with_updated_at (now s) NEW.

(** [log_task_status_change()], BEFORE UPDATE on [tasks]. *)
Definition log_task_status_change (s : session) (db : database)
    (hist : list HistoryEntry.row) (OLD NEW : Task.row)
  : result (Task.row * list HistoryEntry.row) :=
  if negb (task_status_eqb (Task.status OLD) (Task.status NEW)) then
    hist' <- insert_task_history s hist (Task.id NEW)
               (Some (Task.status OLD)) (Task.status NEW)
               (Policy.own_profile_id s db) ;;
    if task_status_eqb (Task.status NEW) finished then
      Ok (Task.with_completed_at (Some (now s)) NEW, hist')
    else if negb (task_status_eqb (Task.status NEW) finished) then
      Ok (Task.with_completed_at None NEW, hist')
    else Ok (NEW, hist')
  else Ok (NEW, hist).

(** One row of an UPDATE on [tasks] that passed the WHERE clause and the
    policies' USING clauses: the SET list, the BEFORE UPDATE triggers in
    the order of their names, the policy's check of the new row, and the
    foreign keys of the columns that changed. *)
Definition update_row (s : session) (db : database) (p : Patch.t)
    (hist : list HistoryEntry.row) (OLD : Task.row)
  : result (Task.row * list HistoryEntry.row) :=
  r <- log_task_status_change s db hist OLD (Patch.apply p OLD) ;;
  let NEW := update_updated_at_column s (fst r) in
  _ <- guard (Policy.tasks_update s db NEW) (rls_violation "tasks") ;;
  _ <- guard (String.eqb (Task.assigned_to NEW) (Task.assigned_to OLD)
              || references_profile db (Task.assigned_to NEW))
             (foreign_key_violation "assigned_to") ;;
  _ <- guard (String.eqb (Task.assigned_by NEW) (Task.assigned_by OLD)
              || references_profile db (Task.assigned_by NEW))
             (foreign_key_violation "assigned_by") ;;
  Ok (NEW, snd r).

(** The rows an [UPDATE tasks ... WHERE id = task_id] touches: those with
    that id which the SELECT and UPDATE policies let the caller see. *)
Definition targets (s : session) (db : database) (task_id : uuid)
    (r : Task.row) : bool :=
  String.eqb (Task.id r) task_id
  && Policy.tasks_select s db r
  && Policy.tasks_update s db r.

Fixpoint update_rows (s : session) (db : database) (task_id : uuid)
    (p : Patch.t) (rows : list Task.row) (hist : list HistoryEntry.row)
  : result (list Task.row * list HistoryEntry.row) :=
  match rows with
  | [] => Ok ([], hist)
  | OLD :: rest =>
      if targets s db task_id OLD then
        r <- update_row s db p hist OLD ;;
        k <- update_rows s db task_id p rest (snd r) ;;
        Ok (fst r :: fst k, snd k)
      else
        k <- update_rows s db task_id p rest hist ;;
        Ok (OLD :: fst k, snd k)
  end.

(** [supabase.from('tasks').update(p).eq('id', task_id)]: one statement,
    which changes nothing when any row fails. *)
Definition update_tasks (s : session) (db : database) (task_id : uuid)
    (p : Patch.t) : result database :=
  k <- update_rows s db task_id p (tasks db) (task_history db) ;;
  Ok (mk_database (profiles db) (fst k) (snd k)).

(** [supabase.from('tasks').insert([{title, description, assigned_to,
    assigned_by, start_date, deadline_date, status}])]: [id],
    [completed_at], [created_at] and [updated_at] take their defaults, and
    no trigger fires on INSERT. *)
Definition insert_task (s : session) (db : database)
    (title description : string) (assigned_to : uuid)
    (assigned_by : option uuid) (start_date deadline_date : date)
    (status : task_status) : result database :=
  match assigned_by with
  | None => Err (not_null_violation "assigned_by")
  | Some by_ =>
      let NEW := Task.mk (gen_random_uuid s (List.length (tasks db)))
                   title (Some description) assigned_to by_ status
                   start_date deadline_date None (now s) (now s) in
      _ <- guard (Policy.tasks_insert s db NEW) (rls_violation "tasks") ;;
      _ <- guard (references_profile db assigned_to)
                 (foreign_key_violation "assigned_to") ;;
      _ <- guard (references_profile db by_)
                 (foreign_key_violation "assigned_by") ;;
      Ok (mk_database (profiles db) (tasks db ++ [NEW]) (task_history db))
  end.

(** [supabase.from('tasks').select('*')]: the rows the SELECT policy
    shows to the caller. *)
Definition select_tasks (s : session) (db : database) : list Task.row :=
  filter (Policy.tasks_select s db) (tasks db).

(** [ORDER BY]: the rows sorted by a total preorder [le], here by
    insertion; PostgreSQL leaves the order of ties open. *)
Fixpoint insert_by {A : Type} (le : A -> A -> bool) (x : A) (l : list A)
  : list A :=
  match l with
  | [] => [x]
  | y :: l' => if le x y then x :: l else y :: insert_by le x l'
  end.

Definition order_by {A : Type} (le : A -> A -> bool) (l : list A) : list A :=
  fold_right (insert_by le) [] l.

(** [supabase.from('profiles').select('*')]. *)
Definition select_profiles (s : session) (db : database) : list Profile.row :=
  filter (Policy.profiles_select s db) (profiles db).

(** [SELECT * FROM task_history] under the policy. *)
Definition select_task_history (s : session) (db : database)
  : list HistoryEntry.row :=
  filter (Policy.task_history_select s db) (task_history db).

(** What an INSERT on [profiles] can fail with: one of the statement errors
    above, or one of the two UNIQUE columns. *)
Inductive profiles_error :=
| profiles_pg (e : pg_error)
| unique_violation (column : string).

(** [supabase.from('profiles').insert([{user_id, username, full_name, title,
    role, position, details}])]: [id], [is_active], [created_at] and
    [updated_at] take their defaults; [user_id] and [username] are UNIQUE. *)
Definition insert_profile (s : session) (db : database)
    (user_id : uuid) (username full_name title : string) (role : user_role)
    (position details : string) : profiles_error + database :=
  let NEW := Profile.mk (gen_random_uuid s (List.length (profiles db)))
               user_id username full_name (Some title) role
               (Some position) (Some details) true (now s) (now s) in
  if negb (Policy.profiles_insert s db NEW) then
    inl (profiles_pg (rls_violation "profiles"))
  else if existsb (fun p => String.eqb (Profile.user_id p) user_id)
                  (profiles db) then
    inl (unique_violation "user_id")
  else if existsb (fun p => String.eqb (Profile.username p) username)
                  (profiles db) then
    inl (unique_violation "username")
  else
    inr (mk_database (profiles db ++ [NEW]) (tasks db) (task_history db)).

End Store.

(** ** Toasts *)

Inductive toast_variant := default | destructive.

Record toast := mk_toast {
  toast_title : string;
  toast_description : string;
  variant : toast_variant
}.

Definition pg_message (e : pg_error) : string :=
  match e with
  | not_null_violation c => String.append "null value in column " c
  | foreign_key_violation c => String.append "foreign key violation on " c
  | rls_violation t =>
      String.append "new row violates row-level security policy for table " t
  end.

(** ** Components *)

(** The object literal both [updateTaskStatus] functions send:
    [{ status: newStatus, ...(newStatus === 'finished' ? { completed_at: new
    Date().toISOString() } : { completed_at: null }) }].  [newStatus] is the
    value of a Select whose items are the three members of the enum. *)
Definition status_update (newStatus : task_status) (client_now : timestamptz)
  : Patch.t :=
  Patch.mk None None None None (Some newStatus) None None
    (Some (if task_status_eqb newStatus finished
           then Some client_now else None)).

(** [task.status === 'finished' && task.completed_at]. *)
Definition finished_with_timestamp (t : Task.row) : bool :=
  task_status_eqb (Task.status t) finished
  && match Task.completed_at t with
     | Some _ => true
     | None => false
     end.

(** [new Date(task.completed_at!) <= new Date(task.deadline_date)]; a task
    that fails the filter before has no timestamp to compare. *)
Definition completed_by_deadline (t : Task.row) : bool :=
  match Task.completed_at t with
  | Some c => Date_of_timestamp c <=? Date_of_date (Task.deadline_date t)
  | None => false
  end.

Module EmployeeDetailsDialog.

Record stats := mk_stats {
  total : JS.Number;
  completed : JS.Number;
  inProgress : JS.Number;
  notStarted : JS.Number;
  onTimeRate : JS.Number;
  completionRate : JS.Number
}.

Definition count (f : Task.row -> bool) (tasks : list Task.row) : JS.Number :=
  JS.of_nat (List.length (filter f tasks)).

Definition getTaskStats (tasks : list Task.row) : stats :=
  let total := JS.of_nat (List.length tasks) in
  let completed :=
    count (fun task => task_status_eqb (Task.status task) finished) tasks in
  let inProgress :=
    count (fun task => task_status_eqb (Task.status task) in_progress) tasks in
  let notStarted :=
    count (fun task => task_status_eqb (Task.status task) not_started) tasks in
  let completedTasks := filter finished_with_timestamp tasks in
  let onTimeTasks := filter completed_by_deadline completedTasks in
  let onTimeRate :=
    if JS.gt (JS.of_nat (List.length completedTasks)) (JS.of_int 0)
    then JS.Math_round
           (JS.mul (JS.div (JS.of_nat (List.length onTimeTasks))
                           (JS.of_nat (List.length completedTasks)))
                   (JS.of_int 100))
    else JS.of_int 0 in
  let completionRate :=
    if JS.gt total (JS.of_int 0)
    then JS.Math_round (JS.mul (JS.div completed total) (JS.of_int 100))
    else JS.of_int 0 in
  mk_stats total completed inProgress notStarted onTimeRate completionRate.

Definition updateTaskStatus (s : session) (client_now : timestamptz)
    (db : database) (taskId : uuid) (newStatus : task_status)
  : toast * database :=
  match Store.update_tasks s db taskId (status_update newStatus client_now) with
  | Err _ =>
      (mk_toast "Error" "Failed to update task status" destructive, db)
  | Ok db' =>
      (mk_toast "Success" "Task status updated successfully" default, db')
  end.

(** [isOverdue(deadlineDate, status)]; [client_now] is [new Date()]. *)
Definition isOverdue (client_now : timestamptz) (deadlineDate : date)
    (status : task_status) : bool :=
  if task_status_eqb status finished then false
  else Date_of_date deadlineDate <? client_now.

End EmployeeDetailsDialog.

Module EmployeeDashboard.

(** The new value of the [tasks] state after [fetchTasks]; without a
    profile the function returns before it asks. *)
Definition fetchTasks (s : session) (profile : option Profile.row)
    (db : database) (tasks : list Task.row) : list Task.row :=
  match profile with
  | None => tasks
  | Some p =>
      Store.order_by
        (fun a b => Task.deadline_date a <=? Task.deadline_date b)
        (filter (fun t => String.eqb (Task.assigned_to t) (Profile.id p))
                (Store.select_tasks s db))
  end.

Definition updateTaskStatus (s : session) (client_now : timestamptz)
    (db : database) (taskId : uuid) (newStatus : task_status)
  : toast * database :=
  match Store.update_tasks s db taskId (status_update newStatus client_now) with
  | Err _ =>
      (mk_toast "Error" "Failed to update task status" destructive, db)
  | Ok db' =>
      (mk_toast "Success" "Task status updated successfully" default, db')
  end.

(** The same function as the details dialog's, over this component's
    [tasks] state. *)
Definition getTaskStats (tasks : list Task.row)
  : EmployeeDetailsDialog.stats :=
  EmployeeDetailsDialog.getTaskStats tasks.

Definition isOverdue (client_now : timestamptz) (deadlineDate : date)
    (status : task_status) : bool :=
  if task_status_eqb status finished then false
  else Date_of_date deadlineDate <? client_now.

End EmployeeDashboard.

Module ManagerDashboard.

(** The new value of the [tasks] state after [fetchTasks]:
    [.order('created_at', { ascending: false })]. *)
Definition fetchTasks (s : session) (db : database) : list Task.row :=
  Store.order_by
    (fun a b => Task.created_at b <=? Task.created_at a)
    (Store.select_tasks s db).

Record progress := mk_progress {
  total : JS.Number;
  completed : JS.Number;
  percentage : JS.Number
}.

Definition getEmployeeProgress (tasks : list Task.row) (employeeId : uuid)
  : progress :=
  let employeeTasks :=
    filter (fun task => String.eqb (Task.assigned_to task) employeeId) tasks in
  let completedTasks :=
    filter (fun task => task_status_eqb (Task.status task) finished)
           employeeTasks in
  let total := JS.of_nat (List.length employeeTasks) in
  let completed := JS.of_nat (List.length completedTasks) in
  mk_progress total completed
    (if JS.gt total (JS.of_int 0)
     then JS.Math_round (JS.mul (JS.div completed total) (JS.of_int 100))
     else JS.of_int 0).

Definition getOnTimeCompletionRate (tasks : list Task.row)
    (employeeId : uuid) : JS.Number :=
  let employeeTasks :=
    filter (fun task => String.eqb (Task.assigned_to task) employeeId
                        && finished_with_timestamp task) tasks in
  let onTimeTasks := filter completed_by_deadline employeeTasks in
  if JS.gt (JS.of_nat (List.length employeeTasks)) (JS.of_int 0)
  then JS.Math_round
         (JS.mul (JS.div (JS.of_nat (List.length onTimeTasks))
                         (JS.of_nat (List.length employeeTasks)))
                 (JS.of_int 100))
  else JS.of_int 0.

(** The new value of the [employees] state after [fetchEmployees]:
    [.eq('role', 'employee').order('full_name')].  The order of two texts
    is the database's collation, [collate]. *)
Definition fetchEmployees (collate : string -> string -> bool)
    (s : session) (db : database) : list Profile.row :=
  Store.order_by
    (fun a b => collate (Profile.full_name a) (Profile.full_name b))
    (filter (fun p => user_role_eqb (Profile.role p) employee)
            (Store.select_profiles s db)).

(** The [tasks] prop the dashboard hands to the details dialog of the
    selected employee. *)
Definition tasks_of_selected (tasks : list Task.row)
    (selectedEmployee : Profile.row) : list Task.row :=
  filter (fun task => String.eqb (Task.assigned_to task)
                                 (Profile.id selectedEmployee)) tasks.

End ManagerDashboard.

Module AddTaskDialog.

(** The form's state.  A date input holds the empty string or a calendar
    date: [None] is the empty string. *)
Record formData := mk_form {
  title : string;
  description : string;
  assigned_to : string;
  start_date : option date;
  deadline_date : option date
}.

Definition empty_form : formData := mk_form "" "" "" None None.

(** [handleSubmit]: the toast shown, the form's next state and the
    database after the call.  [profile] is the caller's profile as
    [useAuth] holds it. *)
Definition handleSubmit (s : session) (profile : option Profile.row)
    (form : formData) (db : database) : toast * formData * database :=
  match start_date form, deadline_date form with
  | Some start, Some deadline =>
      if String.eqb (title form) "" || String.eqb (assigned_to form) "" then
        (mk_toast "Error" "Please fill in all required fields" destructive,
         form, db)
      else if Date_of_date start >? Date_of_date deadline then
        (mk_toast "Error" "Start date cannot be after deadline date"
                  destructive, form, db)
      else
        match Store.insert_task s db (title form) (description form)
                (assigned_to form) (option_map Profile.id profile)
                start deadline not_started with
        | Err e => (mk_toast "Error" (pg_message e) destructive, form, db)
        | Ok db' =>
            (mk_toast "Success" "Task assigned successfully" default,
             empty_form, db')
        end
  | _, _ =>
      (mk_toast "Error" "Please fill in all required fields" destructive,
       form, db)
  end.

End AddTaskDialog.

Module AddEmployeeDialog.

Record formData := mk_form {
  username : string;
  password : string;
  full_name : string;
  title : string;
  position : string;
  details : string
}.

Definition empty_form : formData := mk_form "" "" "" "" "" "".

(** What [supabase.auth.signUp] answers: [{ data: { user }, error }], the
    error by its message and the user by its id. *)
Record signUp_response := mk_response {
  authError : option string;
  user : option uuid
}.

(** [error.message || "Failed to add employee"]. *)
Definition message_or_default (message : string) : string :=
  if String.eqb message "" then "Failed to add employee" else message.

Definition profiles_message (e : Store.profiles_error) : string :=
  match e with
  | Store.profiles_pg e => pg_message e
  | Store.unique_violation c =>
      String.append "duplicate key value violates unique constraint on " c
  end.

(** [handleSubmit]: the toast shown, if any, the form's next state and the
    database after the call.  [signUp] is the authentication service, asked
    with the e-mail address, the password and the username; [s] is the
    session under which the profile is inserted afterwards. *)
Definition handleSubmit
    (signUp : string -> string -> string -> signUp_response)
    (s : session) (form : formData) (db : database)
  : option toast * formData * database :=
  if String.eqb (username form) "" || String.eqb (password form) ""
     || String.eqb (full_name form) "" then
    (Some (mk_toast "Error" "Please fill in all required fields" destructive),
     form, db)
  else
    let email := String.append (username form) "@company.com" in
    let response := signUp email (password form) (username form) in
    match authError response with
    | Some message =>
        (Some (mk_toast "Error" (message_or_default message) destructive),
         form, db)
    | None =>
        match user response with
        | None => (None, form, db)
        | Some user_id =>
            match Store.insert_profile s db user_id (username form)
                    (full_name form) (title form) employee
                    (position form) (details form) with
            | inl e =>
                (Some (mk_toast "Error"
                         (message_or_default (profiles_message e))
                         destructive), form, db)
            | inr db' =>
                (Some (mk_toast "Success" "Employee added successfully"
                         default), empty_form, db')
            end
        end
    end.

End AddEmployeeDialog.

(** ** Vocabulary of the properties *)

(** [completed_at] is non-null exactly when the status is [finished]. *)
Definition task_invariant (t : Task.row) : Prop :=
  Task.completed_at t <> None <-> Task.status t = finished.

(** The audit trail of one task, oldest entry first. *)
Definition history_of (task_id : uuid) (db : database)
  : list HistoryEntry.row :=
  filter (fun h => String.eqb (HistoryEntry.task_id h) task_id)
         (task_history db).

(** The rows of [tasks] with a given id; [id] is the primary key. *)
Definition rows_with_id (task_id : uuid) (rows : list Task.row)
  : list Task.row :=
  filter (fun r => String.eqb (Task.id r) task_id) rows.

(** What a status update makes of a row it touches: the trigger's
    [completed_at] when the status changes, the caller's otherwise. *)
Definition set_status (s : session) (client_now : timestamptz)
    (newStatus : task_status) (OLD : Task.row) : Task.row :=
  Task.mk (Task.id OLD) (Task.title OLD) (Task.description OLD)
    (Task.assigned_to OLD) (Task.assigned_by OLD) newStatus
    (Task.start_date OLD) (Task.deadline_date OLD)
    (if task_status_eqb newStatus finished
     then Some (if task_status_eqb (Task.status OLD) newStatus
                then client_now else now s)
     else None)
    (Task.created_at OLD) (now s).

Definition step_row (s : session) (db : database) (task_id : uuid)
    (client_now : timestamptz) (newStatus : task_status) (OLD : Task.row)
  : Task.row :=
  if Store.targets s db task_id OLD
  then set_status s client_now newStatus OLD
  else OLD.

(** The entry the trigger writes for a row whose status changes, as the
    [n]-th row of [task_history]. *)
Definition logged_entry (s : session) (db : database)
    (newStatus : task_status) (n : nat) (OLD : Task.row)
  : HistoryEntry.row :=
  HistoryEntry.mk (gen_random_uuid s n) (Task.id OLD)
    (Some (Task.status OLD)) newStatus
    (match Policy.own_profile_id s db with Some c => c | None => "" end)
    (now s).

Fixpoint logged (s : session) (db : database) (task_id : uuid)
    (newStatus : task_status) (rows : list Task.row) (n : nat)
  : list HistoryEntry.row :=
  match rows with
  | [] => []
  | OLD :: rest =>
      if Store.targets s db task_id OLD
         && negb (task_status_eqb (Task.status OLD) newStatus)
      then logged_entry s db newStatus n OLD
           :: logged s db task_id newStatus rest (S n)
      else logged s db task_id newStatus rest n
  end.

(** A call of [updateTaskStatus] and a run of calls, one after the other. *)
Record call := mk_call {
  call_session : session;
  call_client_now : timestamptz;
  call_taskId : uuid;
  call_newStatus : task_status
}.

Definition do_call (db : database) (c : call) : database :=
  snd (EmployeeDetailsDialog.updateTaskStatus (call_session c)
         (call_client_now c) db (call_taskId c) (call_newStatus c)).

Definition run (db : database) (calls : list call) : database :=
  fold_left do_call calls db.

(** The number of calls on task [task_id] that ask for a status other than
    the one in place, starting from [current]. *)
Fixpoint transitions (task_id : uuid) (current : task_status)
    (calls : list call) : nat :=
  match calls with
  | [] => 0%nat
  | c :: rest =>
      if String.eqb (call_taskId c) task_id then
        ((if task_status_eqb current (call_newStatus c) then 0 else 1)
         + transitions task_id (call_newStatus c) rest)%nat
      else transitions task_id current rest
  end.

(** Either the task has no entry yet and still has status [s0], or its
    oldest entry records [s0] as the previous status. *)
Definition first_entry_inv (task_id : uuid) (s0 : task_status)
    (db : database) : Prop :=
  (history_of task_id db = []
   /\ forall t, In t (tasks db) -> Task.id t = task_id ->
                Task.status t = s0)
  \/ (exists h rest, history_of task_id db = h :: rest
                     /\ HistoryEntry.old_status h = Some s0).

(** ** Sample data

    The two profiles the migration seeds, a third, inactive employee, and a
    few tasks. *)

Module Sample.

Definition uuid_of (n : nat) : uuid :=
  String.append "00000000-0000-4000-8000-" (NilZero.string_of_uint (Nat.to_uint n)).

Definition admin_uid : uuid := "a0eebc99-9c0b-4ef8-bb6d-6bb9bd380a11".
Definition test_uid : uuid := "a0eebc99-9c0b-4ef8-bb6d-6bb9bd380a12".
Definition idle_uid : uuid := "a0eebc99-9c0b-4ef8-bb6d-6bb9bd380a13".

Definition admin : Profile.row :=
  Profile.mk "p-admin" admin_uid "admin" "Administrator"
    (Some "System Administrator") manager (Some "Senior Manager")
    (Some "System administrator with full access") true 0 0.

Definition test : Profile.row :=
  Profile.mk "p-test" test_uid "test" "Test Employee"
    (Some "Software Developer") employee (Some "Junior Developer")
    (Some "Test employee account") true 0 0.

Definition idle : Profile.row :=
  Profile.mk "p-idle" idle_uid "idle" "Former Employee"
    None employee None None false 0 0.

Definition as_admin (at_ : timestamptz) : session :=
  mk_session (Some admin_uid) at_ uuid_of.

Definition as_test (at_ : timestamptz) : session :=
  mk_session (Some test_uid) at_ uuid_of.

(** A task of the test employee: days 19723 to 19732 are 2024-01-01 to
    2024-01-10. *)
Definition task (id : uuid) (st : task_status)
    (completed_at : option timestamptz) (created_at : timestamptz)
    (deadline : date) : Task.row :=
  Task.mk id "Write the report" (Some "") "p-test" "p-admin" st
    19723 deadline completed_at created_at created_at.

Definition db_of (rows : list Task.row) : database :=
  mk_database [admin; test; idle] rows [].

(** Forty tasks with deadline 2024-01-10: twenty-three finished on
    2024-01-05, and seventeen either not started or finished on
    2024-01-15. *)
Definition done_early : Task.row :=
  task "t" finished (Some 1704412800000) 5 19732.
Definition done_late : Task.row :=
  task "t" finished (Some 1705276800000) 5 19732.
Definition open_task : Task.row := task "t" not_started None 5 19732.

Definition forty_with_open : list Task.row :=
  repeat done_early 23 ++ repeat open_task 17.
Definition forty_with_late : list Task.row :=
  repeat done_early 23 ++ repeat done_late 17.

(** The form of the scenario: start 2024-01-01, deadline 2024-01-10. *)
Definition report_form (assignee : string) : AddTaskDialog.formData :=
  AddTaskDialog.mk_form "Write the report" "" assignee
    (Some 19723) (Some 19732).

Definition as_idle (at_ : timestamptz) : session :=
  mk_session (Some idle_uid) at_ uuid_of.

Definition anonymous (at_ : timestamptz) : session :=
  mk_session None at_ uuid_of.

(** An authentication service that accepts every sign-up. *)
Definition signUp_ok (email password username : string)
  : AddEmployeeDialog.signUp_response :=
  AddEmployeeDialog.mk_response None (Some (String.append "u-" username)).

Definition new_hire : AddEmployeeDialog.formData :=
  AddEmployeeDialog.mk_form "nora" "s3cret" "Nora Quist" "Analyst" "" "".

End Sample.

(** ** Orders of a task list *)

Definition deadline_ascending (l : list Task.row) : Prop :=
  StronglySorted
    (fun a b => Task.deadline_date a <= Task.deadline_date b) l.

Definition created_descending (l : list Task.row) : Prop :=
  StronglySorted (fun a b => Task.created_at b <= Task.created_at a) l.

(** ** Rates, as the specification words them *)

(** Round-half-up to the nearest integer. *)
Definition round_half_up (q : Q) : Z := Qfloor (q + (1 # 2))%Q.

(** [round(100 * part / whole)], and 0 when [whole] is 0. *)
Definition percent (part whole : nat) : Z :=
  match whole with
  | O => 0
  | S _ =>
      round_half_up (100 * (Z.of_nat part # Pos.of_nat whole))%Q
  end.

(** [completionRate(tasks) = round(100 * count(status == finished) /
    count(tasks))]. *)
Definition completionRate_spec (tasks : list Task.row) : Z :=
  percent
    (List.length
       (filter (fun t => task_status_eqb (Task.status t) finished) tasks))
    (List.length tasks).

(** [onTimeRate(tasks) = round(100 * count(finished and completed_at <=
    deadline_date) / count(finished and completed_at is non-null))]. *)
Definition onTimeRate_spec (tasks : list Task.row) : Z :=
  percent
    (List.length
       (filter (fun t =>
                  task_status_eqb (Task.status t) finished
                  && match Task.completed_at t with
                     | Some c => c <=? Date_of_date (Task.deadline_date t)
                     | None => false
                     end) tasks))
    (List.length
       (filter (fun t =>
                  task_status_eqb (Task.status t) finished
                  && match Task.completed_at t with
                     | Some _ => true
                     | None => false
                     end) tasks)).

(** The computation all four rate functions share:
    [whole > 0 ? Math.round((part / whole) * 100) : 0]. *)
Definition js_percent (part whole : nat) : JS.Number :=
  if JS.gt (JS.of_nat whole) (JS.of_int 0)
  then JS.Math_round
         (JS.mul (JS.div (JS.of_nat part) (JS.of_nat whole)) (JS.of_int 100))
  else JS.of_int 0.

Definition Number_eqb (x y : JS.Number) : bool :=
  match x, y with
  | S754_zero a, S754_zero b => Bool.eqb a b
  | S754_infinity a, S754_infinity b => Bool.eqb a b
  | S754_nan, S754_nan => true
  | S754_finite a m e, S754_finite b n f =>
      Bool.eqb a b && Pos.eqb m n && Z.eqb e f
  | _, _ => false
  end.

(** The two computations agree for every [part <= whole < bound]. *)
Definition rates_agree_below (bound : nat) : bool :=
  forallb (fun whole =>
             forallb (fun part =>
                        Number_eqb (js_percent part whole)
                                   (JS.of_int (percent part whole)))
                     (seq 0 (S whole)))
          (seq 0 bound).

(** ** Reading an audit trail *)

(** The status a trail leads to from [current], each entry having to start
    from the status the one before it ended in. *)
Fixpoint replay (current : task_status) (trail : list HistoryEntry.row)
  : option task_status :=
  match trail with
  | [] => Some current
  | h :: rest =>
      match HistoryEntry.old_status h with
      | Some o =>
          if task_status_eqb o current
          then replay (HistoryEntry.new_status h) rest
          else None
      | None => None
      end
  end.

(** The number of rows whose status differs between a table and the table
    an UPDATE made of it. *)
Definition status_changes (before after : list Task.row) : nat :=
  List.length
    (filter (fun ab => negb (task_status_eqb (Task.status (fst ab))
                                             (Task.status (snd ab))))
            (combine before after)).

(** The percentages of the specification lie between 0 and 100 for every
    [part <= whole < bound]. *)
Definition percent_bounded_below (bound : nat) : bool :=
  forallb (fun whole =>
             forallb (fun part =>
                        (0 <=? percent part whole)
                        && (percent part whole <=? 100))
                     (seq 0 (S whole)))
          (seq 0 bound).

(** ** References between the tables

    What the foreign keys of the schema ask: every task's assignee and
    assigner are profiles, and every audit entry's task and author are a
    task and a profile. *)
Definition referential_integrity (db : database) : Prop :=
  Forall (fun t => In (Task.assigned_to t) (map Profile.id (profiles db))
                   /\ In (Task.assigned_by t) (map Profile.id (profiles db)))
         (tasks db)
  /\ Forall (fun h => In (HistoryEntry.task_id h) (map Task.id (tasks db))
                      /\ In (HistoryEntry.changed_by h)
                            (map Profile.id (profiles db)))
            (task_history db).

(** ** Basic facts *)

Lemma task_status_eqb_spec (a b : task_status) :
  reflect (a = b) (task_status_eqb a b).
Proof. destruct a, b; constructor; congruence. Qed.

Lemma task_status_eqb_refl (a : task_status) : task_status_eqb a a = true.
Proof. now destruct a. Qed.

Lemma existsb_find_some {A : Type} (f g : A -> bool) (l : list A) :
  existsb (fun x => f x && g x) l = true -> find f l <> None.
Proof.
  induction l as [|x l IH]; simpl; [discriminate|].
  destruct (f x) eqn:Hf; simpl; [discriminate|]. exact IH.
Qed.

Section Policies.

Variables (s : session) (db : database).

Lemma manager_has_profile :
  Policy.is_manager s db = true -> Policy.own_profile_id s db <> None.
Proof.
  unfold Policy.is_manager, Policy.own_profile_id.
  destruct (auth_uid s) as [u|]; [|discriminate].
  intros H. apply existsb_find_some in H.
  destruct (find _ (profiles db)); [discriminate|contradiction].
Qed.

Lemma assignee_has_profile (t : Task.row) :
  Policy.is_assignee s db t = true -> Policy.own_profile_id s db <> None.
Proof.
  unfold Policy.is_assignee.
  destruct (Policy.own_profile_id s db); [discriminate|discriminate].
Qed.

Lemma updater_has_profile (t : Task.row) :
  Policy.tasks_update s db t = true ->
  exists c, Policy.own_profile_id s db = Some c.
Proof.
  unfold Policy.tasks_update. intros H.
  apply orb_true_iff in H.
  assert (Hp : Policy.own_profile_id s db <> None)
    by (destruct H; eauto using manager_has_profile, assignee_has_profile).
  destruct (Policy.own_profile_id s db) as [c|]; [eauto|contradiction].
Qed.

Lemma profile_is_authenticated (c : uuid) :
  Policy.own_profile_id s db = Some c -> Policy.task_history_insert s = true.
Proof.
  unfold Policy.own_profile_id, Policy.task_history_insert.
  destruct (auth_uid s); [reflexivity|discriminate].
Qed.

Lemma targets_update (task_id : uuid) (t : Task.row) :
  Store.targets s db task_id t = true ->
  Task.id t = task_id /\ Policy.tasks_update s db t = true.
Proof.
  unfold Store.targets. intros H.
  apply andb_true_iff in H as [H Hu].
  apply andb_true_iff in H as [Hi _].
  split; [now apply String.eqb_eq|exact Hu].
Qed.

End Policies.

(** ** A status update, row by row *)

Section StatusUpdate.

Variables (s : session) (db : database) (task_id : uuid).
Variables (client_now : timestamptz) (newStatus : task_status).

Lemma tasks_update_assigned_to (a b : Task.row) :
  Task.assigned_to a = Task.assigned_to b ->
  Policy.tasks_update s db a = Policy.tasks_update s db b.
Proof.
  unfold Policy.tasks_update, Policy.is_assignee. now intros ->.
Qed.

Lemma update_row_status (hist : list HistoryEntry.row) (OLD : Task.row) :
  Store.targets s db task_id OLD = true ->
  Store.update_row s db (status_update newStatus client_now) hist OLD
  = Ok (set_status s client_now newStatus OLD,
        if task_status_eqb (Task.status OLD) newStatus then hist
        else hist ++ [logged_entry s db newStatus (List.length hist) OLD]).
Proof.
  intros Ht. apply targets_update in Ht as [_ Hu].
  destruct (updater_has_profile s db OLD Hu) as [c Hc].
  pose proof (profile_is_authenticated s db c Hc) as Ha.
  assert (Hn : forall NEW, Task.assigned_to NEW = Task.assigned_to OLD ->
                           Policy.tasks_update s db NEW = true)
    by (intros NEW E; rewrite <- Hu; now apply tasks_update_assigned_to).
  unfold Store.update_row, Store.log_task_status_change,
    Store.insert_task_history, logged_entry.
  rewrite Ha, Hc.
  destruct OLD as [i ti de at_ ab st sd dd ca cr up].
  unfold set_status; cbn -[Policy.tasks_update] in *.
  destruct st, newStatus; cbn -[Policy.tasks_update];
    rewrite Hn by reflexivity; cbn; rewrite !String.eqb_refl; reflexivity.
Qed.

Lemma update_rows_status (rows : list Task.row) :
  forall hist,
    Store.update_rows s db task_id (status_update newStatus client_now)
      rows hist
    = Ok (map (step_row s db task_id client_now newStatus) rows,
          hist ++ logged s db task_id newStatus rows (List.length hist)).
Proof.
  induction rows as [|OLD rest IH]; intros hist; simpl.
  - now rewrite app_nil_r.
  - unfold step_row at 1.
    destruct (Store.targets s db task_id OLD) eqn:Ht; simpl.
    + rewrite (update_row_status hist OLD Ht). simpl.
      destruct (task_status_eqb (Task.status OLD) newStatus); simpl.
      * now rewrite IH.
      * rewrite IH. simpl. rewrite <- app_assoc, length_app. simpl.
        now rewrite Nat.add_1_r.
    + now rewrite IH.
Qed.

(** The statement never fails: whoever passes the policy has a profile
    to sign the audit entry with, and the row keeps its assignee. *)
Lemma update_tasks_status :
  Store.update_tasks s db task_id (status_update newStatus client_now)
  = Ok (mk_database (profiles db)
          (map (step_row s db task_id client_now newStatus) (tasks db))
          (task_history db
           ++ logged s db task_id newStatus (tasks db)
                (List.length (task_history db)))).
Proof.
  unfold Store.update_tasks. now rewrite update_rows_status.
Qed.

Lemma updateTaskStatus_db :
  snd (EmployeeDetailsDialog.updateTaskStatus s client_now db task_id
         newStatus)
  = mk_database (profiles db)
      (map (step_row s db task_id client_now newStatus) (tasks db))
      (task_history db
       ++ logged s db task_id newStatus (tasks db)
            (List.length (task_history db))).
Proof.
  unfold EmployeeDetailsDialog.updateTaskStatus.
  now rewrite update_tasks_status.
Qed.

Lemma set_status_invariant (OLD : Task.row) :
  task_invariant (set_status s client_now newStatus OLD).
Proof.
  unfold task_invariant, set_status; simpl.
  destruct newStatus; simpl; split; congruence.
Qed.

End StatusUpdate.

(** ** The completion timestamp *)

Lemma updateTaskStatus_same (s : session) (client_now : timestamptz)
    (db : database) (taskId : uuid) (newStatus : task_status) :
  EmployeeDashboard.updateTaskStatus s client_now db taskId newStatus
  = EmployeeDetailsDialog.updateTaskStatus s client_now db taskId newStatus.
Proof. reflexivity. Qed.

Lemma step_row_touched (s : session) (db : database) (taskId : uuid)
    (client_now : timestamptz) (newStatus : task_status) (rows : list Task.row) :
  Forall2 (fun OLD NEW =>
             if Store.targets s db taskId OLD
             then Task.id NEW = taskId /\ Task.status NEW = newStatus
                  /\ task_invariant NEW
             else NEW = OLD)
          rows (map (step_row s db taskId client_now newStatus) rows).
Proof.
  induction rows as [|OLD rest IH]; simpl; constructor; [|exact IH].
  unfold step_row.
  destruct (Store.targets s db taskId OLD) eqn:Ht; [|reflexivity].
  apply targets_update in Ht as [Hi _].
  repeat split; [exact Hi| |]; apply set_status_invariant.
Qed.

(** C1.  After every call of [updateTaskStatus], each row the call reaches
    (the rows with that id which the policies let the caller update) has
    the requested status and a [completed_at] that is non-null exactly when
    that status is [finished]; every other row is as it was.  Hence if
    [completed_at] is non-null exactly for the finished tasks before a call,
    it is so after it. *)
Theorem updateTaskStatus_completed_at_iff_finished
    (s : session) (client_now : timestamptz) (db : database)
    (taskId : uuid) (newStatus : task_status) :
  let db' := snd (EmployeeDetailsDialog.updateTaskStatus s client_now db
                    taskId newStatus) in
  Forall2 (fun OLD NEW =>
             if Store.targets s db taskId OLD
             then Task.id NEW = taskId /\ Task.status NEW = newStatus
                  /\ (Task.completed_at NEW <> None
                      <-> Task.status NEW = finished)
             else NEW = OLD)
          (tasks db) (tasks db')
  /\ (Forall task_invariant (tasks db) -> Forall task_invariant (tasks db')).
Proof.
  intros db'. subst db'. rewrite updateTaskStatus_db. simpl.
  pose proof (step_row_touched s db taskId client_now newStatus (tasks db))
    as H.
  split; [exact H|].
  intros Hinv. revert H Hinv.
  generalize (map (step_row s db taskId client_now newStatus) (tasks db)).
  induction (tasks db) as [|OLD rest IH]; intros l H Hinv;
    inversion H as [|? NEW ? l' Hrow Hrest]; subst; constructor.
  - inversion Hinv; subst.
    destruct (Store.targets s db taskId OLD);
      [apply Hrow|now rewrite Hrow].
  - inversion Hinv; subst. now apply IH.
Qed.

Lemma updateTaskStatus_completed_at_iff_finished_witness :
  let db := Sample.db_of [Sample.task "t1" in_progress None 5 19732] in
  Forall task_invariant (tasks db)
  /\ Forall task_invariant
       (tasks (snd (EmployeeDetailsDialog.updateTaskStatus
                      (Sample.as_test 1704412800000) 1704412800123 db
                      "t1" finished))).
Proof.
  intros db.
  assert (H : Forall task_invariant (tasks db)).
  { repeat constructor; unfold task_invariant; simpl; congruence. }
  split; [exact H|].
  exact (proj2 (updateTaskStatus_completed_at_iff_finished
                  (Sample.as_test 1704412800000) 1704412800123 db
                  "t1" finished) H).
Defined.

(** ** The audit trail *)

Section Trail.

Variables (s : session) (db : database) (taskId : uuid).
Variables (client_now : timestamptz) (newStatus : task_status).

Let step := step_row s db taskId client_now newStatus.

Lemma step_row_id (r : Task.row) : Task.id (step r) = Task.id r.
Proof.
  unfold step, step_row. now destruct (Store.targets s db taskId r).
Qed.

Lemma step_row_assigned_to (r : Task.row) :
  Task.assigned_to (step r) = Task.assigned_to r.
Proof.
  unfold step, step_row. now destruct (Store.targets s db taskId r).
Qed.

Lemma step_row_other (r : Task.row) :
  Task.id r <> taskId -> step r = r.
Proof.
  unfold step, step_row, Store.targets. intros H.
  apply String.eqb_neq in H. now rewrite H.
Qed.

Lemma rows_with_id_step (task_id : uuid) (rows : list Task.row) :
  rows_with_id task_id (map step rows)
  = map step (rows_with_id task_id rows).
Proof.
  unfold rows_with_id.
  induction rows as [|r rest IH]; simpl; [reflexivity|].
  rewrite step_row_id.
  destruct (String.eqb (Task.id r) task_id); simpl; now rewrite IH.
Qed.

Lemma logged_rows_with_id (rows : list Task.row) :
  forall n,
    logged s db taskId newStatus rows n
    = logged s db taskId newStatus (rows_with_id taskId rows) n.
Proof.
  unfold rows_with_id.
  induction rows as [|r rest IH]; intros n; simpl; [reflexivity|].
  destruct (String.eqb (Task.id r) taskId) eqn:Hi; simpl.
  - destruct (Store.targets s db taskId r
              && negb (task_status_eqb (Task.status r) newStatus));
      now rewrite IH.
  - unfold Store.targets at 1. rewrite Hi. simpl. apply IH.
Qed.

Lemma logged_task_id (rows : list Task.row) :
  forall n,
    Forall (fun h => HistoryEntry.task_id h = taskId)
           (logged s db taskId newStatus rows n).
Proof.
  induction rows as [|r rest IH]; intros n; simpl; [constructor|].
  destruct (Store.targets s db taskId r) eqn:Ht; simpl; [|apply IH].
  destruct (negb (task_status_eqb (Task.status r) newStatus));
    [|apply IH].
  constructor; [|apply IH].
  simpl. now apply targets_update in Ht as [Hi _].
Qed.

Lemma history_of_logged_other (task_id : uuid) (rows : list Task.row)
    (n : nat) :
  taskId <> task_id ->
  filter (fun h => String.eqb (HistoryEntry.task_id h) task_id)
         (logged s db taskId newStatus rows n) = [].
Proof.
  intros Hne.
  pose proof (logged_task_id rows n) as H.
  induction H as [|h l Hh _ IH]; simpl; [reflexivity|].
  rewrite Hh. apply String.eqb_neq in Hne. now rewrite Hne.
Qed.

Lemma history_of_logged_same (rows : list Task.row) (n : nat) :
  filter (fun h => String.eqb (HistoryEntry.task_id h) taskId)
         (logged s db taskId newStatus rows n)
  = logged s db taskId newStatus rows n.
Proof.
  pose proof (logged_task_id rows n) as H.
  induction H as [|h l Hh _ IH]; simpl; [reflexivity|].
  rewrite Hh, String.eqb_refl. now rewrite IH.
Qed.

End Trail.

Lemma do_call_db (db : database) (c : call) :
  do_call db c
  = mk_database (profiles db)
      (map (step_row (call_session c) db (call_taskId c) (call_client_now c)
              (call_newStatus c)) (tasks db))
      (task_history db
       ++ logged (call_session c) db (call_taskId c) (call_newStatus c)
            (tasks db) (List.length (task_history db))).
Proof. unfold do_call. apply updateTaskStatus_db. Qed.

Lemma tasks_update_stable (s : session) (db db' : database)
    (t t' : Task.row) :
  profiles db' = profiles db ->
  Task.assigned_to t' = Task.assigned_to t ->
  Policy.tasks_update s db' t' = Policy.tasks_update s db t.
Proof.
  unfold Policy.tasks_update, Policy.is_assignee, Policy.is_manager,
    Policy.own_profile_id.
  now intros -> ->.
Qed.

Lemma update_implies_targets (s : session) (db : database) (t : Task.row) :
  Policy.tasks_update s db t = true ->
  Store.targets s db (Task.id t) t = true.
Proof.
  unfold Store.targets, Policy.tasks_select, Policy.tasks_update.
  intros H. rewrite String.eqb_refl, H. simpl.
  now rewrite orb_comm, H.
Qed.

Lemma rows_with_id_singleton (task_id : uuid) (rows : list Task.row)
    (t : Task.row) :
  rows_with_id task_id rows = [t] -> Task.id t = task_id.
Proof.
  intros H.
  assert (Hin : In t (rows_with_id task_id rows)) by (rewrite H; now left).
  apply filter_In in Hin as [_ Hi]. now apply String.eqb_eq.
Qed.

(** C4.  One task, any run of status updates by callers the policy admits
    for it (and any other calls on other tasks in between): the task's
    audit trail grows by exactly the number of calls that asked for a
    status other than the one in place. *)
Theorem history_counts_actual_transitions
    (task_id : uuid) (calls : list call) :
  forall (db : database) (t : Task.row),
    rows_with_id task_id (tasks db) = [t] ->
    Forall (fun c => call_taskId c = task_id ->
                     Policy.tasks_update (call_session c) db t = true)
           calls ->
    List.length (history_of task_id (run db calls))
    = (List.length (history_of task_id db)
       + transitions task_id (Task.status t) calls)%nat.
Proof.
  induction calls as [|c rest IH]; intros db t Hrow Hauth; simpl.
  - now rewrite Nat.add_0_r.
  - inversion Hauth as [|? ? Hc Hrest]; subst.
    pose proof (rows_with_id_singleton _ _ _ Hrow) as Hid.
    pose proof (do_call_db db c) as Hdb.
    set (t' := step_row (call_session c) db (call_taskId c)
                 (call_client_now c) (call_newStatus c) t).
    assert (Hrow' : rows_with_id task_id (tasks (do_call db c)) = [t'])
      by (rewrite Hdb; simpl; now rewrite rows_with_id_step, Hrow).
    assert (Hauth' :
              Forall (fun c0 => call_taskId c0 = task_id ->
                                Policy.tasks_update (call_session c0)
                                  (do_call db c) t' = true) rest).
    { eapply Forall_impl; [|exact Hrest]. intros c0 H0 E.
      rewrite <- (H0 E). apply tasks_update_stable.
      - now rewrite Hdb.
      - apply step_row_assigned_to. }
    rewrite (IH (do_call db c) t' Hrow' Hauth').
    unfold history_of at 1. rewrite Hdb. simpl. rewrite filter_app, length_app.
    fold (history_of task_id db).
    destruct (String.eqb (call_taskId c) task_id) eqn:Ec.
    + apply String.eqb_eq in Ec. specialize (Hc Ec).
      rewrite Ec, history_of_logged_same, logged_rows_with_id, Hrow.
      pose proof (update_implies_targets _ _ _ Hc) as Ht.
      rewrite Hid in Ht. simpl. rewrite Ht. simpl.
      unfold t', step_row. rewrite Ec, Ht.
      destruct (task_status_eqb (Task.status t) (call_newStatus c));
        simpl; lia.
    + apply String.eqb_neq in Ec.
      rewrite history_of_logged_other by exact Ec. simpl.
      unfold t'. rewrite step_row_other by congruence. lia.
Qed.

Lemma history_counts_actual_transitions_witness :
  let t := Sample.task "t1" not_started None 5 19732 in
  let db := Sample.db_of [t; Sample.task "t2" not_started None 6 19740] in
  let calls :=
    [mk_call (Sample.as_test 100) 101 "t1" in_progress;
     mk_call (Sample.as_test 200) 201 "t1" in_progress;
     mk_call (Sample.as_test 300) 301 "t2" finished;
     mk_call (Sample.as_admin 400) 401 "t1" finished] in
  rows_with_id "t1" (tasks db) = [t]
  /\ Forall (fun c => call_taskId c = "t1" ->
                      Policy.tasks_update (call_session c) db t = true) calls
  /\ List.length (history_of "t1" (run db calls)) = (0 + 2)%nat.
Proof.
  intros t db calls.
  assert (H1 : rows_with_id "t1" (tasks db) = [t]) by reflexivity.
  assert (H2 : Forall (fun c => call_taskId c = "t1" ->
                        Policy.tasks_update (call_session c) db t = true)
                      calls)
    by (repeat constructor).
  exact (conj H1 (conj H2
           (history_counts_actual_transitions "t1" calls db t H1 H2))).
Defined.

Section FirstEntry.

Variables (task_id : uuid) (s0 : task_status).


Lemma logged_old_status (s : session) (db : database) (taskId : uuid)
    (newStatus : task_status) (rows : list Task.row) :
  forall n,
    Forall (fun h => exists OLD,
                In OLD rows /\ Task.id OLD = taskId
                /\ HistoryEntry.old_status h = Some (Task.status OLD))
           (logged s db taskId newStatus rows n).
Proof.
  induction rows as [|r rest IH]; intros n; simpl; [constructor|].
  assert (Hrest : Forall (fun h => exists OLD,
                    (r = OLD \/ In OLD rest) /\ Task.id OLD = taskId
                    /\ HistoryEntry.old_status h = Some (Task.status OLD))
                    (logged s db taskId newStatus rest n)
                  /\ Forall (fun h => exists OLD,
                    (r = OLD \/ In OLD rest) /\ Task.id OLD = taskId
                    /\ HistoryEntry.old_status h = Some (Task.status OLD))
                    (logged s db taskId newStatus rest (S n))).
  { split; (eapply Forall_impl; [|apply IH]);
      intros h (OLD & Hin & Hi & Ho); exists OLD; auto. }
  destruct Hrest as [H0 H1].
  destruct (Store.targets s db taskId r) eqn:Ht; simpl; [|exact H0].
  destruct (negb (task_status_eqb (Task.status r) newStatus));
    [|exact H0].
  constructor; [|exact H1].
  exists r. apply targets_update in Ht as [Hi _]. simpl. auto.
Qed.

Lemma logged_nil (s : session) (db : database) (taskId : uuid)
    (newStatus : task_status) (rows : list Task.row) :
  forall n,
    logged s db taskId newStatus rows n = [] ->
    forall OLD, In OLD rows -> Store.targets s db taskId OLD = true ->
                Task.status OLD = newStatus.
Proof.
  induction rows as [|r rest IH]; intros n Hl OLD Hin Ht;
    simpl in *; [contradiction|].
  destruct (Store.targets s db taskId r) eqn:Hr; simpl in Hl.
  - destruct (task_status_eqb_spec (Task.status r) newStatus) as [E|E];
      simpl in Hl; [|discriminate].
    destruct Hin as [<-|Hin]; [exact E|eauto].
  - destruct Hin as [<-|Hin]; [congruence|eauto].
Qed.

Lemma first_entry_inv_step (db : database) (c : call) :
  first_entry_inv task_id s0 db -> first_entry_inv task_id s0 (do_call db c).
Proof.
  intros Hinv. unfold first_entry_inv, history_of.
  rewrite do_call_db. simpl. rewrite filter_app.
  fold (history_of task_id db).
  destruct Hinv as [[Hnil Hst]|(h & rest & Hh & Ho)].
  2:{ right. rewrite Hh. simpl. eauto. }
  rewrite Hnil. simpl.
  destruct (String.eqb_spec (call_taskId c) task_id) as [E|E].
  - rewrite E, history_of_logged_same.
    destruct (logged (call_session c) db task_id (call_newStatus c)
                (tasks db) (List.length (task_history db)))
      as [|h l] eqn:Hl.
    + left. split; [reflexivity|].
      intros t' Hin Hi. apply in_map_iff in Hin as (r & <- & Hr).
      rewrite step_row_id in Hi. unfold step_row.
      destruct (Store.targets (call_session c) db task_id r) eqn:Ht;
        [|now apply Hst].
      simpl. rewrite <- (logged_nil _ _ _ _ _ _ Hl r Hr Ht). now apply Hst.
    + right. exists h, l. split; [reflexivity|].
      pose proof (logged_old_status (call_session c) db task_id
                    (call_newStatus c) (tasks db)
                    (List.length (task_history db))) as Hf.
      rewrite Hl in Hf. inversion Hf as [|? ? (OLD & Hin & Hi & Hold) _].
      rewrite Hold. f_equal. now apply Hst.
  - rewrite history_of_logged_other by exact E.
    left. split; [reflexivity|].
    intros t' Hin Hi. apply in_map_iff in Hin as (r & <- & Hr).
    rewrite step_row_id in Hi.
    rewrite step_row_other by congruence. now apply Hst.
Qed.

Lemma first_entry_inv_run (calls : list call) :
  forall db, first_entry_inv task_id s0 db ->
             first_entry_inv task_id s0 (run db calls).
Proof.
  induction calls as [|c rest IH]; intros db H; simpl; [exact H|].
  apply IH. now apply first_entry_inv_step.
Qed.

End FirstEntry.

(** C5, as the code has it.  The trigger fires on UPDATE only and writes
    the status it replaces: the oldest entry of a task records, as previous
    status, the status the task had while it had no entry ([not_started]
    for a task that [handleSubmit] created), and never null. *)
Theorem first_history_entry_records_replaced_status
    (task_id : uuid) (s0 : task_status) (calls : list call) (db : database) :
  (forall t, In t (tasks db) -> Task.id t = task_id -> Task.status t = s0) ->
  history_of task_id db = [] ->
  forall h, hd_error (history_of task_id (run db calls)) = Some h ->
            HistoryEntry.old_status h = Some s0.
Proof.
  intros Hst Hnil h Hh.
  destruct (first_entry_inv_run task_id s0 calls db (or_introl (conj Hnil Hst)))
    as [[Hrun _]|(h' & rest & Hrun & Ho)];
    rewrite Hrun in Hh; simpl in Hh; congruence.
Qed.

Lemma first_history_entry_records_replaced_status_witness :
  let db := Sample.db_of [Sample.task "t1" not_started None 5 19732] in
  let calls :=
    [mk_call (Sample.as_test 100) 101 "t1" in_progress;
     mk_call (Sample.as_test 200) 201 "t1" finished] in
  exists h, hd_error (history_of "t1" (run db calls)) = Some h
            /\ HistoryEntry.old_status h = Some not_started.
Proof.
  intros db calls. eexists. split; [reflexivity|].
  apply (first_history_entry_records_replaced_status
           "t1" not_started calls db).
  - intros t [<-|[]] _. reflexivity.
  - reflexivity.
  - reflexivity.
Defined.

(** C5, as the specification has it, fails: a manager creates a task, its
    assignee starts it, and the task's first entry reads
    [not_started -> in_progress]. *)
Lemma first_history_entry_old_status_is_not_null :
  let db1 := snd (AddTaskDialog.handleSubmit (Sample.as_admin 50)
                    (Some Sample.admin) (Sample.report_form "p-test")
                    (Sample.db_of [])) in
  let db2 := snd (EmployeeDashboard.updateTaskStatus (Sample.as_test 100) 101
                    db1 (Sample.uuid_of 0) in_progress) in
  ~ (forall h, hd_error (history_of (Sample.uuid_of 0) db2) = Some h ->
               HistoryEntry.old_status h = None).
Proof.
  intros db1 db2 H.
  specialize (H (HistoryEntry.mk (Sample.uuid_of 0) (Sample.uuid_of 0)
                   (Some not_started) in_progress "p-test" 100)
                eq_refl).
  discriminate H.
Qed.

(** ** Same-status updates *)

Lemma logged_same_status (s : session) (db : database) (taskId : uuid)
    (newStatus : task_status) (rows : list Task.row) :
  (forall t, In t rows -> Task.id t = taskId -> Task.status t = newStatus) ->
  forall n, logged s db taskId newStatus rows n = [].
Proof.
  induction rows as [|r rest IH]; intros Hst n; simpl; [reflexivity|].
  assert (Hrest : forall n, logged s db taskId newStatus rest n = [])
    by (apply IH; intros t Hin; apply Hst; now right).
  destruct (Store.targets s db taskId r) eqn:Ht; simpl; [|apply Hrest].
  apply targets_update in Ht as [Hi _].
  rewrite (Hst r (or_introl eq_refl) Hi), task_status_eqb_refl. simpl.
  apply Hrest.
Qed.

Lemma same_status_appends_no_entry (s : session) (client_now : timestamptz)
    (db : database) (taskId : uuid) (newStatus : task_status) :
  (forall t, In t (tasks db) -> Task.id t = taskId ->
             Task.status t = newStatus) ->
  task_history (snd (EmployeeDetailsDialog.updateTaskStatus s client_now db
                       taskId newStatus))
  = task_history db.
Proof.
  intros Hst. rewrite updateTaskStatus_db. simpl.
  rewrite logged_same_status by exact Hst. apply app_nil_r.
Qed.

(** C3 at a finished task.  The assignee picks "finished" again ten days
    later: no entry is written, as the claim says, but the object the
    component sends carries a fresh [completed_at], which the trigger
    leaves alone because the status did not change.  The task, completed
    on 2024-01-05 before its deadline of 2024-01-10, now reads as completed
    on 2024-01-15, and the on-time rate falls from 100 to 0. *)
Theorem same_status_update_overwrites_completed_at :
  let db := Sample.db_of
              [Sample.task "t1" finished (Some 1704412800000) 5 19732] in
  let db' := snd (EmployeeDetailsDialog.updateTaskStatus
                    (Sample.as_test 1705276800000) 1705276800123 db
                    "t1" finished) in
  task_history db' = task_history db
  /\ map Task.status (tasks db) = [finished]
  /\ map Task.completed_at (tasks db) = [Some 1704412800000]
  /\ map Task.status (tasks db') = [finished]
  /\ map Task.completed_at (tasks db') = [Some 1705276800123]
  /\ EmployeeDetailsDialog.onTimeRate
       (EmployeeDetailsDialog.getTaskStats (tasks db)) = JS.of_int 100
  /\ EmployeeDetailsDialog.onTimeRate
       (EmployeeDetailsDialog.getTaskStats (tasks db')) = JS.of_int 0.
Proof. vm_compute. repeat split. Qed.

(** ** What the update policy lets an assignee change *)

(** C2 at the test employee's own task.  The policy named "Managers can
    update tasks or employees can update their own status" looks at the
    caller and the row's assignee only, not at the columns that change: the
    employee moves the start and the deadline of the task and rewrites who
    assigned it. *)
Theorem assignee_can_change_dates_and_assigner :
  let db := Sample.db_of [Sample.task "t1" in_progress None 5 19732] in
  let p := Patch.mk None None None (Some "p-test") None
             (Some 19730) (Some 19800) None in
  exists db',
    Store.update_tasks (Sample.as_test 100) db "t1" p = Ok db'
    /\ map Task.assigned_by (tasks db) = ["p-admin"]
    /\ map Task.start_date (tasks db) = [19723]
    /\ map Task.deadline_date (tasks db) = [19732]
    /\ map Task.assigned_by (tasks db') = ["p-test"]
    /\ map Task.start_date (tasks db') = [19730]
    /\ map Task.deadline_date (tasks db') = [19800]
    /\ task_history db' = [].
Proof. eexists. vm_compute. repeat split. Qed.

(** An assignee cannot hand the task to someone else: the policy's check
    of the new row fails. *)
Lemma assignee_cannot_reassign :
  let db := Sample.db_of [Sample.task "t1" in_progress None 5 19732] in
  Store.update_tasks (Sample.as_test 100) db "t1"
    (Patch.mk None None (Some "p-idle") None None None None None)
  = Err (rls_violation "tasks").
Proof. reflexivity. Qed.

(** ** Creating a task *)

Lemma insert_task_ok (s : session) (db db' : database)
    (title description : string) (assigned_to : uuid)
    (assigned_by : option uuid) (start_date deadline_date : date)
    (status : task_status) :
  Store.insert_task s db title description assigned_to assigned_by
    start_date deadline_date status = Ok db' ->
  Store.references_profile db assigned_to = true
  /\ exists by_,
       assigned_by = Some by_
       /\ db' = mk_database (profiles db)
                  (tasks db
                   ++ [Task.mk (gen_random_uuid s (List.length (tasks db)))
                         title (Some description) assigned_to by_ status
                         start_date deadline_date None (now s) (now s)])
                  (task_history db).
Proof.
  unfold Store.insert_task.
  destruct assigned_by as [by_|]; [|discriminate].
  destruct (Policy.tasks_insert s db _); simpl; [|discriminate].
  destruct (Store.references_profile db assigned_to); simpl; [|discriminate].
  destruct (Store.references_profile db by_); simpl; [|discriminate].
  intros [= <-]. eauto.
Qed.

(** What [handleSubmit] does, by the toast it shows: an error leaves the
    database as it was; a success has passed every check and has added one
    row. *)
Lemma handleSubmit_cases (s : session) (profile : option Profile.row)
    (form : AddTaskDialog.formData) (db : database) :
  let r := AddTaskDialog.handleSubmit s profile form db in
  (variant (fst (fst r)) = destructive /\ snd r = db)
  \/ (variant (fst (fst r)) = default
      /\ AddTaskDialog.title form <> ""
      /\ Store.references_profile db (AddTaskDialog.assigned_to form) = true
      /\ exists start deadline by_,
           AddTaskDialog.start_date form = Some start
           /\ AddTaskDialog.deadline_date form = Some deadline
           /\ start <= deadline
           /\ snd r
              = mk_database (profiles db)
                  (tasks db
                   ++ [Task.mk (gen_random_uuid s (List.length (tasks db)))
                         (AddTaskDialog.title form)
                         (Some (AddTaskDialog.description form))
                         (AddTaskDialog.assigned_to form) by_ not_started
                         start deadline None (now s) (now s)])
                  (task_history db)).
Proof.
  unfold AddTaskDialog.handleSubmit.
  destruct (AddTaskDialog.start_date form) as [start|]; [|now left].
  destruct (AddTaskDialog.deadline_date form) as [deadline|]; [|now left].
  destruct (String.eqb_spec (AddTaskDialog.title form) "") as [Et|Et];
    simpl; [now left|].
  destruct (String.eqb (AddTaskDialog.assigned_to form) "");
    simpl; [now left|].
  destruct (Date_of_date start >? Date_of_date deadline) eqn:Ed;
    [now left|].
  destruct (Store.insert_task s db _ _ _ _ _ _ _) as [db'|e] eqn:Hi;
    [|now left].
  right. simpl. apply insert_task_ok in Hi as (Hr & by_ & _ & ->).
  repeat split; [exact Et|exact Hr|].
  exists start, deadline, by_. repeat split.
  unfold Date_of_date, ms_per_day in Ed.
  destruct (Z.gtb_spec (start * 86400000) (deadline * 86400000)); [discriminate|lia].
Qed.

(** C8, as the code has it.  [handleSubmit] shows an error and leaves the
    database as it was whenever the title is empty, or the start date is
    after the deadline date, or the assignee is empty or is not the id of a
    profile.  It does not ask whether that profile is active, nor for its
    role. *)
Theorem handleSubmit_rejects_invalid_input
    (s : session) (profile : option Profile.row)
    (form : AddTaskDialog.formData) (db : database) :
  AddTaskDialog.title form = ""
  \/ (exists start deadline,
        AddTaskDialog.start_date form = Some start
        /\ AddTaskDialog.deadline_date form = Some deadline
        /\ start > deadline)
  \/ Store.references_profile db (AddTaskDialog.assigned_to form) = false ->
  let r := AddTaskDialog.handleSubmit s profile form db in
  variant (fst (fst r)) = destructive /\ snd r = db.
Proof.
  intros Hbad r. subst r.
  destruct (handleSubmit_cases s profile form db)
    as [H|(_ & Ht & Hr & start & deadline & by_ & Hs & Hd & Hle & _)];
    [exact H|].
  exfalso.
  destruct Hbad as [E|[(a & b & Ha & Hb & Hgt)|E]]; [congruence| |congruence].
  rewrite Ha in Hs. rewrite Hb in Hd.
  injection Hs as ->. injection Hd as ->. lia.
Qed.

Lemma handleSubmit_rejects_invalid_input_witness :
  let db := Sample.db_of [] in
  let form := AddTaskDialog.mk_form "Write the report" "" "p-test"
                (Some 19732) (Some 19723) in
  let r := AddTaskDialog.handleSubmit (Sample.as_admin 50)
             (Some Sample.admin) form db in
  variant (fst (fst r)) = destructive /\ snd r = db.
Proof.
  intros db form.
  apply (handleSubmit_rejects_invalid_input (Sample.as_admin 50)
           (Some Sample.admin) form db).
  right. left. exists 19732, 19723. repeat split.
Defined.

(** C8, as the specification has it, fails: the manager assigns a task to
    an employee whose profile is inactive, and the row is created. *)
Lemma handleSubmit_accepts_inactive_assignee :
  let db := Sample.db_of [] in
  let r := AddTaskDialog.handleSubmit (Sample.as_admin 50)
             (Some Sample.admin) (Sample.report_form "p-idle") db in
  In Sample.idle (profiles db)
  /\ Profile.is_active Sample.idle = false
  /\ variant (fst (fst r)) = default
  /\ map Task.assigned_to (tasks (snd r)) = [Profile.id Sample.idle].
Proof. vm_compute. intuition. Qed.

(** C10.  Whatever the form holds and whoever submits it, a submission
    that succeeds adds exactly one row, with status [not_started] and a
    null [completed_at]; one that fails adds none. *)
Theorem created_task_is_not_started
    (s : session) (profile : option Profile.row)
    (form : AddTaskDialog.formData) (db : database) :
  let r := AddTaskDialog.handleSubmit s profile form db in
  (variant (fst (fst r)) = default ->
   exists NEW, tasks (snd r) = tasks db ++ [NEW]
               /\ Task.status NEW = not_started
               /\ Task.completed_at NEW = None)
  /\ (variant (fst (fst r)) = destructive -> tasks (snd r) = tasks db).
Proof.
  intros r. subst r.
  destruct (handleSubmit_cases s profile form db)
    as [[Hv Hdb]|(Hv & _ & _ & start & deadline & by_ & _ & _ & _ & Hdb)];
    rewrite Hv, Hdb; split; try discriminate; intros _.
  - reflexivity.
  - eexists. simpl. repeat split.
Qed.

Lemma created_task_is_not_started_witness :
  let db := Sample.db_of [Sample.task "t1" finished (Some 7) 5 19732] in
  let r := AddTaskDialog.handleSubmit (Sample.as_admin 50)
             (Some Sample.admin) (Sample.report_form "p-test") db in
  variant (fst (fst r)) = default
  /\ exists NEW, tasks (snd r) = tasks db ++ [NEW]
                 /\ Task.status NEW = not_started
                 /\ Task.completed_at NEW = None.
Proof.
  intros db r.
  assert (H : variant (fst (fst r)) = default) by reflexivity.
  split; [exact H|].
  exact (proj1 (created_task_is_not_started (Sample.as_admin 50)
                  (Some Sample.admin) (Sample.report_form "p-test") db) H).
Defined.

(** ** Listing tasks *)

Section OrderBy.

Context {A : Type}.
Variable le : A -> A -> bool.
Hypothesis le_total : forall a b, le a b = true \/ le b a = true.
Hypothesis le_trans :
  forall a b c, le a b = true -> le b c = true -> le a c = true.

Lemma insert_by_permutation (x : A) (l : list A) :
  Permutation (x :: l) (Store.insert_by le x l).
Proof.
  induction l as [|y l IH]; simpl; [reflexivity|].
  destruct (le x y); [reflexivity|].
  rewrite perm_swap. now constructor.
Qed.

Lemma order_by_permutation (l : list A) :
  Permutation l (Store.order_by le l).
Proof.
  induction l as [|x l IH]; simpl; [constructor|].
  rewrite <- insert_by_permutation. now constructor.
Qed.

Lemma insert_by_sorted (x : A) (l : list A) :
  StronglySorted (fun a b => le a b = true) l ->
  StronglySorted (fun a b => le a b = true) (Store.insert_by le x l).
Proof.
  induction 1 as [|y l Hs IH Hy]; simpl.
  - repeat constructor.
  - destruct (le x y) eqn:Hxy.
    + constructor; [now constructor|].
      constructor; [exact Hxy|].
      eapply Forall_impl; [|exact Hy]. intros z. now apply le_trans.
    + constructor; [exact IH|].
      eapply Permutation_Forall; [apply insert_by_permutation|].
      constructor; [|exact Hy].
      destruct (le_total x y); congruence.
Qed.

Lemma order_by_sorted (l : list A) :
  StronglySorted (fun a b => le a b = true) (Store.order_by le l).
Proof.
  induction l as [|x l IH]; simpl; [constructor|].
  now apply insert_by_sorted.
Qed.

End OrderBy.

Lemma StronglySorted_impl {A : Type} (R Q : A -> A -> Prop) (l : list A) :
  (forall a b, R a b -> Q a b) -> StronglySorted R l -> StronglySorted Q l.
Proof.
  intros H. induction 1 as [|x l Hs IH Hx]; constructor; [exact IH|].
  eapply Forall_impl; [|exact Hx]. intros b. apply H.
Qed.

Lemma order_by_key_sorted {A : Type} (key : A -> Z) (l : list A) :
  StronglySorted (fun a b => key a <= key b)
    (Store.order_by (fun a b => key a <=? key b) l).
Proof.
  eapply StronglySorted_impl; [|apply order_by_sorted].
  - intros a b. apply Z.leb_le.
  - intros a b. rewrite !Z.leb_le. lia.
  - intros a b c. rewrite !Z.leb_le. lia.
Qed.

(** C9, as the code has it.  The employee's list is the caller's own tasks
    by deadline date, earliest first; the manager's list is every task the
    caller may see by creation time, latest first. *)
Theorem fetchTasks_orders
    (s : session) (db : database) (p : Profile.row) (st : list Task.row) :
  deadline_ascending (EmployeeDashboard.fetchTasks s (Some p) db st)
  /\ Permutation
       (filter (fun t => String.eqb (Task.assigned_to t) (Profile.id p))
               (Store.select_tasks s db))
       (EmployeeDashboard.fetchTasks s (Some p) db st)
  /\ created_descending (ManagerDashboard.fetchTasks s db)
  /\ Permutation (Store.select_tasks s db) (ManagerDashboard.fetchTasks s db).
Proof.
  unfold deadline_ascending, created_descending,
    EmployeeDashboard.fetchTasks, ManagerDashboard.fetchTasks.
  repeat split.
  - apply (order_by_key_sorted Task.deadline_date).
  - apply order_by_permutation.
  - eapply StronglySorted_impl; [|apply order_by_sorted].
    + intros a b. apply Z.leb_le.
    + intros a b. rewrite !Z.leb_le. lia.
    + intros a b c. rewrite !Z.leb_le. lia.
  - apply order_by_permutation.
Qed.

(** C9, as the specification has it, fails for a manager: of two tasks,
    the one created later has the later deadline and comes first. *)
Lemma manager_fetchTasks_not_by_deadline :
  let db := Sample.db_of [Sample.task "t1" not_started None 1 19732;
                          Sample.task "t2" not_started None 2 19740] in
  ~ deadline_ascending (ManagerDashboard.fetchTasks (Sample.as_admin 3) db).
Proof.
  intros db H.
  assert (E : map Task.deadline_date
                (ManagerDashboard.fetchTasks (Sample.as_admin 3) db)
              = [19740; 19732]) by reflexivity.
  unfold deadline_ascending in H.
  destruct (ManagerDashboard.fetchTasks (Sample.as_admin 3) db)
    as [|a [|b l]]; try discriminate E.
  injection E as Ea Eb _.
  inversion H as [|? ? _ Hf]; subst.
  inversion Hf as [|? ? Hab _]; subst. lia.
Qed.

(** ** Rates *)

Lemma completionRate_js_percent (tasks : list Task.row) :
  EmployeeDetailsDialog.completionRate
    (EmployeeDetailsDialog.getTaskStats tasks)
  = js_percent
      (List.length
         (filter (fun t => task_status_eqb (Task.status t) finished) tasks))
      (List.length tasks).
Proof. reflexivity. Qed.

Lemma percentage_js_percent (tasks : list Task.row) (employeeId : uuid) :
  ManagerDashboard.percentage
    (ManagerDashboard.getEmployeeProgress tasks employeeId)
  = EmployeeDetailsDialog.completionRate
      (EmployeeDetailsDialog.getTaskStats
         (filter (fun t => String.eqb (Task.assigned_to t) employeeId) tasks)).
Proof. reflexivity. Qed.

Lemma onTimeRate_js_percent (tasks : list Task.row) :
  EmployeeDetailsDialog.onTimeRate (EmployeeDetailsDialog.getTaskStats tasks)
  = js_percent
      (List.length
         (filter completed_by_deadline
                 (filter finished_with_timestamp tasks)))
      (List.length (filter finished_with_timestamp tasks)).
Proof. reflexivity. Qed.

Lemma Number_eqb_eq (x y : JS.Number) : Number_eqb x y = true -> x = y.
Proof.
  destruct x as [a|a| |a m e], y as [b|b| |b n f]; simpl;
    try discriminate; try reflexivity.
  - intros H. now apply Bool.eqb_prop in H as ->.
  - intros H. now apply Bool.eqb_prop in H as ->.
  - intros H. apply andb_true_iff in H as [H He].
    apply andb_true_iff in H as [Hs Hm].
    apply Bool.eqb_prop in Hs as ->. apply Pos.eqb_eq in Hm as ->.
    now apply Z.eqb_eq in He as ->.
Qed.

Lemma rates_agree_below_40 : rates_agree_below 40 = true.
Proof. vm_compute. reflexivity. Qed.

(** Below forty tasks the components' rates are the specification's. *)
Lemma js_percent_small (part whole : nat) :
  (part <= whole)%nat -> (whole < 40)%nat ->
  js_percent part whole = JS.of_int (percent part whole).
Proof.
  intros Hp Hw. apply Number_eqb_eq.
  pose proof rates_agree_below_40 as H. unfold rates_agree_below in H.
  rewrite forallb_forall in H.
  specialize (H whole). rewrite in_seq in H.
  specialize (H (conj (Nat.le_0_l _) Hw)).
  rewrite forallb_forall in H. apply H. rewrite in_seq. lia.
Qed.

Lemma completionRate_small (tasks : list Task.row) :
  (List.length tasks < 40)%nat ->
  EmployeeDetailsDialog.completionRate
    (EmployeeDetailsDialog.getTaskStats tasks)
  = JS.of_int (completionRate_spec tasks).
Proof.
  intros H. rewrite completionRate_js_percent.
  apply js_percent_small; [apply filter_length_le|exact H].
Qed.

(** C6 at forty tasks of which twenty-three are finished.  The exact
    percentage is 57.5, which rounds half up to 58.  The components divide
    first and multiply by 100 afterwards, in binary floating point:
    [23 / 40] is the double nearest to 0.575, its product with 100 is the
    double below 57.5, and [Math.round] returns 57.  The three values the
    claim lists are the ones the components compute. *)
Theorem completionRate_of_23_in_40 :
  EmployeeDetailsDialog.completionRate
    (EmployeeDetailsDialog.getTaskStats Sample.forty_with_open)
  = JS.of_int 57
  /\ ManagerDashboard.percentage
       (ManagerDashboard.getEmployeeProgress Sample.forty_with_open "p-test")
     = JS.of_int 57
  /\ completionRate_spec Sample.forty_with_open = 58
  /\ EmployeeDetailsDialog.completionRate
       (EmployeeDetailsDialog.getTaskStats []) = JS.of_int 0
  /\ EmployeeDetailsDialog.completionRate
       (EmployeeDetailsDialog.getTaskStats
          [Sample.done_early; Sample.done_early]) = JS.of_int 100
  /\ EmployeeDetailsDialog.completionRate
       (EmployeeDetailsDialog.getTaskStats
          [Sample.done_early; Sample.open_task]) = JS.of_int 50.
Proof. vm_compute. repeat split. Qed.

Lemma onTimeRate_counts (tasks : list Task.row) :
  filter completed_by_deadline (filter finished_with_timestamp tasks)
  = filter (fun t =>
              task_status_eqb (Task.status t) finished
              && match Task.completed_at t with
                 | Some c => c <=? Date_of_date (Task.deadline_date t)
                 | None => false
                 end) tasks.
Proof.
  induction tasks as [|t rest IH]; simpl; [reflexivity|].
  rewrite <- IH. unfold finished_with_timestamp at 1.
  destruct (task_status_eqb (Task.status t) finished); simpl;
    [|reflexivity].
  destruct (Task.completed_at t) as [c|] eqn:Ec; simpl; [|reflexivity].
  unfold completed_by_deadline at 1, Date_of_timestamp. now rewrite Ec.
Qed.

Lemma onTimeRate_small (tasks : list Task.row) :
  (List.length (filter finished_with_timestamp tasks) < 40)%nat ->
  EmployeeDetailsDialog.onTimeRate (EmployeeDetailsDialog.getTaskStats tasks)
  = JS.of_int (onTimeRate_spec tasks).
Proof.
  intros H. rewrite onTimeRate_js_percent.
  rewrite js_percent_small; [|apply filter_length_le|exact H].
  unfold onTimeRate_spec. now rewrite onTimeRate_counts.
Qed.

Lemma getOnTimeCompletionRate_onTimeRate (tasks : list Task.row)
    (employeeId : uuid) :
  ManagerDashboard.getOnTimeCompletionRate tasks employeeId
  = EmployeeDetailsDialog.onTimeRate
      (EmployeeDetailsDialog.getTaskStats
         (filter (fun t => String.eqb (Task.assigned_to t) employeeId) tasks)).
Proof.
  unfold ManagerDashboard.getOnTimeCompletionRate.
  rewrite onTimeRate_js_percent.
  assert (E : filter (fun task =>
                        String.eqb (Task.assigned_to task) employeeId
                        && finished_with_timestamp task) tasks
              = filter finished_with_timestamp
                  (filter (fun t =>
                             String.eqb (Task.assigned_to t) employeeId)
                          tasks)).
  { induction tasks as [|t rest IH]; simpl; [reflexivity|].
    destruct (String.eqb (Task.assigned_to t) employeeId); simpl;
      [|exact IH].
    destruct (finished_with_timestamp t); now rewrite IH. }
  now rewrite E.
Qed.

(** C7 at forty finished tasks of which twenty-three were completed before
    the deadline.  The exact percentage is 57.5, which rounds half up to
    58; the components compute 57, for the reason given at C6.  The three
    values the specification lists are the ones the components compute.
    The comparison is between instants, the deadline being midnight UTC at
    the start of its day. *)
Theorem onTimeRate_of_23_in_40 :
  EmployeeDetailsDialog.onTimeRate
    (EmployeeDetailsDialog.getTaskStats Sample.forty_with_late)
  = JS.of_int 57
  /\ ManagerDashboard.getOnTimeCompletionRate Sample.forty_with_late "p-test"
     = JS.of_int 57
  /\ onTimeRate_spec Sample.forty_with_late = 58
  /\ EmployeeDetailsDialog.onTimeRate
       (EmployeeDetailsDialog.getTaskStats [Sample.open_task]) = JS.of_int 0
  /\ EmployeeDetailsDialog.onTimeRate
       (EmployeeDetailsDialog.getTaskStats [Sample.done_early])
     = JS.of_int 100
  /\ EmployeeDetailsDialog.onTimeRate
       (EmployeeDetailsDialog.getTaskStats [Sample.done_late]) = JS.of_int 0
  /\ EmployeeDetailsDialog.onTimeRate
       (EmployeeDetailsDialog.getTaskStats
          [Sample.done_early; Sample.done_late]) = JS.of_int 50.
Proof. vm_compute. repeat split. Qed.

(** A task completed at noon of its deadline day counts as late. *)
Lemma completed_on_deadline_day_is_late :
  EmployeeDetailsDialog.onTimeRate
    (EmployeeDetailsDialog.getTaskStats
       [Sample.task "t" finished (Some (19732 * ms_per_day + 43200000))
          5 19732])
  = JS.of_int 0.
Proof. reflexivity. Qed.

(** ** Further properties of the status update *)

Lemma targets_denied (s : session) (db : database) (taskId : uuid)
    (rows : list Task.row) :
  (forall t, In t rows -> Task.id t = taskId ->
             Policy.tasks_update s db t = false) ->
  forall t, In t rows -> Store.targets s db taskId t = false.
Proof.
  intros H t Hin. unfold Store.targets.
  destruct (String.eqb_spec (Task.id t) taskId) as [E|E]; [|reflexivity].
  rewrite (H t Hin E). apply andb_false_r.
Qed.

Lemma logged_none_targeted (s : session) (db : database) (taskId : uuid)
    (newStatus : task_status) (rows : list Task.row) :
  (forall t, In t rows -> Store.targets s db taskId t = true ->
             Task.status t = newStatus) ->
  forall n, logged s db taskId newStatus rows n = [].
Proof.
  induction rows as [|r rest IH]; intros Hst n; simpl; [reflexivity|].
  assert (Hrest : forall n, logged s db taskId newStatus rest n = [])
    by (apply IH; intros t Hin; apply Hst; now right).
  destruct (Store.targets s db taskId r) eqn:Ht; simpl; [|apply Hrest].
  rewrite (Hst r (or_introl eq_refl) Ht), task_status_eqb_refl. simpl.
  apply Hrest.
Qed.

Lemma map_step_row_untargeted (s : session) (db : database) (taskId : uuid)
    (client_now : timestamptz) (newStatus : task_status)
    (rows : list Task.row) :
  (forall t, In t rows -> Store.targets s db taskId t = false) ->
  map (step_row s db taskId client_now newStatus) rows = rows.
Proof.
  induction rows as [|r rest IH]; intros H; simpl; [reflexivity|].
  unfold step_row at 1. rewrite (H r (or_introl eq_refl)).
  f_equal. apply IH. intros t Hin. apply H. now right.
Qed.

(** X1.  A call that reaches no row -- no task has that id, or the caller
    is neither a manager nor the assignee of the one that has, or nobody is
    signed in -- leaves the database exactly as it was, and the component
    still announces success: an UPDATE that matches no row is not an
    error. *)
Theorem updateTaskStatus_reaching_no_row
    (s : session) (client_now : timestamptz) (db : database)
    (taskId : uuid) (newStatus : task_status) :
  (forall t, In t (tasks db) -> Task.id t = taskId ->
             Policy.tasks_update s db t = false) ->
  EmployeeDetailsDialog.updateTaskStatus s client_now db taskId newStatus
  = (mk_toast "Success" "Task status updated successfully" default, db).
Proof.
  intros H. pose proof (targets_denied s db taskId (tasks db) H) as Ht.
  unfold EmployeeDetailsDialog.updateTaskStatus.
  rewrite update_tasks_status.
  rewrite map_step_row_untargeted by exact Ht.
  rewrite logged_none_targeted, app_nil_r.
  - now destruct db.
  - intros t Hin E. rewrite (Ht t Hin) in E. discriminate E.
Qed.

Lemma updateTaskStatus_reaching_no_row_witness :
  let db := Sample.db_of [Sample.task "t1" in_progress None 5 19732] in
  EmployeeDetailsDialog.updateTaskStatus (Sample.as_idle 100) 101 db
    "t1" finished
  = (mk_toast "Success" "Task status updated successfully" default, db).
Proof.
  intros db.
  apply (updateTaskStatus_reaching_no_row (Sample.as_idle 100) 101 db
           "t1" finished).
  intros t [<-|[]] _. reflexivity.
Defined.

(** X2.  A status update writes three columns and no others: every row
    keeps its id, title, description, assignee, assigner, dates and
    creation time; no row is added or removed; the profiles are left
    alone. *)
Theorem updateTaskStatus_keeps_other_columns
    (s : session) (client_now : timestamptz) (db : database)
    (taskId : uuid) (newStatus : task_status) :
  let db' := snd (EmployeeDetailsDialog.updateTaskStatus s client_now db
                    taskId newStatus) in
  profiles db' = profiles db
  /\ Forall2 (fun OLD NEW =>
                Task.id NEW = Task.id OLD
                /\ Task.title NEW = Task.title OLD
                /\ Task.description NEW = Task.description OLD
                /\ Task.assigned_to NEW = Task.assigned_to OLD
                /\ Task.assigned_by NEW = Task.assigned_by OLD
                /\ Task.start_date NEW = Task.start_date OLD
                /\ Task.deadline_date NEW = Task.deadline_date OLD
                /\ Task.created_at NEW = Task.created_at OLD)
             (tasks db) (tasks db').
Proof.
  intros db'. subst db'. rewrite updateTaskStatus_db. simpl.
  split; [reflexivity|].
  induction (tasks db) as [|OLD rest IH]; simpl; constructor; [|exact IH].
  unfold step_row. destruct (Store.targets s db taskId OLD); simpl;
    repeat split.
Qed.

Lemma transition_effect
    (s : session) (client_now : timestamptz) (db : database)
    (taskId : uuid) (newStatus : task_status) (t : Task.row) :
  rows_with_id taskId (tasks db) = [t] ->
  Policy.tasks_update s db t = true ->
  Task.status t <> newStatus ->
  exists caller,
    Policy.own_profile_id s db = Some caller
    /\ snd (EmployeeDetailsDialog.updateTaskStatus s client_now db taskId
              newStatus)
       = mk_database (profiles db)
           (map (step_row s db taskId client_now newStatus) (tasks db))
           (task_history db
            ++ [HistoryEntry.mk
                  (gen_random_uuid s (List.length (task_history db)))
                  taskId (Some (Task.status t)) newStatus caller (now s)])
    /\ rows_with_id taskId
         (map (step_row s db taskId client_now newStatus) (tasks db))
       = [Task.mk (Task.id t) (Task.title t) (Task.description t)
            (Task.assigned_to t) (Task.assigned_by t) newStatus
            (Task.start_date t) (Task.deadline_date t)
            (if task_status_eqb newStatus finished
             then Some (now s) else None)
            (Task.created_at t) (now s)].
Proof.
  intros Hrow Hu Hne. rewrite updateTaskStatus_db.
  pose proof (rows_with_id_singleton _ _ _ Hrow) as Hid.
  pose proof (update_implies_targets _ _ _ Hu) as Ht. rewrite Hid in Ht.
  destruct (updater_has_profile s db t Hu) as [c Hc].
  assert (Hst : task_status_eqb (Task.status t) newStatus = false)
    by (destruct (task_status_eqb_spec (Task.status t) newStatus);
        [contradiction|reflexivity]).
  exists c. split; [exact Hc|]. split.
  - rewrite logged_rows_with_id, Hrow. simpl. rewrite Ht, Hst. simpl.
    unfold logged_entry. now rewrite Hc, Hid.
  - rewrite rows_with_id_step, Hrow. simpl. unfold step_row. rewrite Ht.
    unfold set_status. now rewrite Hst.
Qed.

(** X3.  What an actual transition does.  When the one task with that id
    has another status than the one asked for and the caller passes the
    update policy, the call sets the status, stamps [completed_at] with the
    server's clock (or clears it when the new status is not [finished]),
    whatever time the client sent, sets [updated_at], and appends one entry:
    this task, the status replaced, the new status, the caller's profile
    and the server's time. *)
Theorem updateTaskStatus_transition
    (s : session) (client_now : timestamptz) (db : database)
    (taskId : uuid) (newStatus : task_status) (t : Task.row) :
  rows_with_id taskId (tasks db) = [t] ->
  Policy.tasks_update s db t = true ->
  Task.status t <> newStatus ->
  let db' := snd (EmployeeDetailsDialog.updateTaskStatus s client_now db
                    taskId newStatus) in
  exists t' caller,
    rows_with_id taskId (tasks db') = [t']
    /\ Task.status t' = newStatus
    /\ Task.completed_at t'
       = (if task_status_eqb newStatus finished then Some (now s) else None)
    /\ Task.updated_at t' = now s
    /\ Policy.own_profile_id s db = Some caller
    /\ task_history db'
       = task_history db
         ++ [HistoryEntry.mk
               (gen_random_uuid s (List.length (task_history db)))
               taskId (Some (Task.status t)) newStatus caller (now s)].
Proof.
  intros Hrow Hu Hne db'. subst db'.
  destruct (transition_effect s client_now db taskId newStatus t Hrow Hu Hne)
    as (c & Hc & -> & Hrow').
  simpl. rewrite Hrow'. eexists. exists c. repeat split. exact Hc.
Qed.

Lemma updateTaskStatus_transition_witness :
  let t := Sample.task "t1" in_progress None 5 19732 in
  let db := Sample.db_of [t] in
  let db' := snd (EmployeeDetailsDialog.updateTaskStatus
                    (Sample.as_test 1704412800000) 1704412899999 db
                    "t1" finished) in
  exists t' caller,
    rows_with_id "t1" (tasks db') = [t']
    /\ Task.status t' = finished
    /\ Task.completed_at t' = Some 1704412800000
    /\ Task.updated_at t' = 1704412800000
    /\ Policy.own_profile_id (Sample.as_test 1704412800000) db = Some caller
    /\ task_history db'
       = task_history db
         ++ [HistoryEntry.mk (Sample.uuid_of 0) "t1" (Some in_progress)
               finished caller 1704412800000].
Proof.
  intros t db.
  apply (updateTaskStatus_transition (Sample.as_test 1704412800000)
           1704412899999 db "t1" finished t).
  - reflexivity.
  - reflexivity.
  - discriminate.
Defined.

Lemma logged_real_change (s : session) (db : database) (taskId : uuid)
    (newStatus : task_status) (rows : list Task.row) :
  forall n,
    Forall (fun h => exists o, HistoryEntry.old_status h = Some o
                               /\ o <> HistoryEntry.new_status h)
           (logged s db taskId newStatus rows n).
Proof.
  induction rows as [|r rest IH]; intros n; simpl; [constructor|].
  destruct (Store.targets s db taskId r); simpl; [|apply IH].
  destruct (task_status_eqb_spec (Task.status r) newStatus) as [E|E];
    simpl; [apply IH|].
  constructor; [|apply IH]. exists (Task.status r). now split.
Qed.

(** X4.  The audit trail is append-only and has no empty entries: whatever
    calls are made, by whomever, the entries that were there stay as they
    were and in place, and every entry added records a status and a
    different status that replaced it. *)
Theorem history_is_append_only (calls : list call) :
  forall db : database,
  exists added,
    task_history (run db calls) = task_history db ++ added
    /\ Forall (fun h => exists o, HistoryEntry.old_status h = Some o
                                  /\ o <> HistoryEntry.new_status h)
              added.
Proof.
  induction calls as [|c rest IH]; intros db; simpl.
  - exists []. split; [now rewrite app_nil_r|constructor].
  - destruct (IH (do_call db c)) as (added & Hrun & Hadded).
    rewrite Hrun, do_call_db. simpl. rewrite <- app_assoc.
    eexists. split; [reflexivity|].
    apply Forall_app. split; [apply logged_real_change|exact Hadded].
Qed.

Lemma replay_app (current : task_status) (trail : list HistoryEntry.row)
    (h : HistoryEntry.row) :
  replay current (trail ++ [h])
  = match replay current trail with
    | Some last =>
        match HistoryEntry.old_status h with
        | Some o => if task_status_eqb o last
                    then Some (HistoryEntry.new_status h) else None
        | None => None
        end
    | None => None
    end.
Proof.
  revert current. induction trail as [|e rest IH]; intros current; simpl.
  - destruct (HistoryEntry.old_status h) as [o|]; [|reflexivity].
    now destruct (task_status_eqb o current).
  - destruct (HistoryEntry.old_status e) as [o|]; [|reflexivity].
    destruct (task_status_eqb o current); [apply IH|reflexivity].
Qed.

Lemma replay_step (task_id : uuid) (s0 : task_status) (db : database)
    (c : call) (t : Task.row) :
  rows_with_id task_id (tasks db) = [t] ->
  replay s0 (history_of task_id db) = Some (Task.status t) ->
  exists t',
    rows_with_id task_id (tasks (do_call db c)) = [t']
    /\ replay s0 (history_of task_id (do_call db c)) = Some (Task.status t').
Proof.
  intros Hrow Hrep.
  pose proof (rows_with_id_singleton _ _ _ Hrow) as Hid.
  unfold history_of. rewrite do_call_db. simpl.
  rewrite rows_with_id_step, Hrow, filter_app. fold (history_of task_id db).
  simpl. eexists. split; [reflexivity|].
  destruct (String.eqb_spec (call_taskId c) task_id) as [E|E].
  - rewrite E, history_of_logged_same, logged_rows_with_id, Hrow. simpl.
    unfold step_row.
    destruct (Store.targets (call_session c) db task_id t); simpl;
      [|now rewrite app_nil_r].
    destruct (task_status_eqb_spec (Task.status t) (call_newStatus c))
      as [Es|Es]; simpl.
    + now rewrite app_nil_r, Hrep, Es.
    + rewrite replay_app, Hrep. simpl.
      now rewrite task_status_eqb_refl.
  - rewrite history_of_logged_other by exact E.
    rewrite app_nil_r, step_row_other by congruence. exact Hrep.
Qed.

Lemma replay_run (task_id : uuid) (s0 : task_status) (calls : list call) :
  forall (db : database) (t : Task.row),
    rows_with_id task_id (tasks db) = [t] ->
    replay s0 (history_of task_id db) = Some (Task.status t) ->
    exists t',
      rows_with_id task_id (tasks (run db calls)) = [t']
      /\ replay s0 (history_of task_id (run db calls))
         = Some (Task.status t').
Proof.
  induction calls as [|c rest IH]; intros db t Hrow Hrep; simpl.
  - eauto.
  - destruct (replay_step task_id s0 db c t Hrow Hrep) as (t1 & Hrow1 & Hrep1).
    exact (IH (do_call db c) t1 Hrow1 Hrep1).
Qed.

(** X5.  The audit trail of a task tells its story.  Start from a task
    without entries; after any calls, by callers admitted or not, on this
    task or on others, the task's entries form a chain -- each starts from
    the status the one before ended in, the first from the task's original
    status -- and the chain ends in the status the task has now. *)
Theorem replay_history_gives_current_status
    (task_id : uuid) (calls : list call) (db : database) (t : Task.row) :
  rows_with_id task_id (tasks db) = [t] ->
  history_of task_id db = [] ->
  exists t',
    rows_with_id task_id (tasks (run db calls)) = [t']
    /\ replay (Task.status t) (history_of task_id (run db calls))
       = Some (Task.status t').
Proof.
  intros Hrow Hnil. apply (replay_run task_id (Task.status t) calls db t Hrow).
  now rewrite Hnil.
Qed.

Lemma replay_history_gives_current_status_witness :
  let t := Sample.task "t1" not_started None 5 19732 in
  let db := Sample.db_of [t; Sample.task "t2" not_started None 6 19740] in
  let calls :=
    [mk_call (Sample.as_test 100) 101 "t1" in_progress;
     mk_call (Sample.as_idle 150) 151 "t1" not_started;
     mk_call (Sample.as_test 200) 201 "t1" in_progress;
     mk_call (Sample.as_test 300) 301 "t2" finished;
     mk_call (Sample.as_admin 400) 401 "t1" finished;
     mk_call (Sample.as_admin 500) 501 "t1" in_progress] in
  exists t',
    rows_with_id "t1" (tasks (run db calls)) = [t']
    /\ replay not_started (history_of "t1" (run db calls))
       = Some (Task.status t').
Proof.
  intros t db calls.
  apply (replay_history_gives_current_status "t1" calls db t);
    reflexivity.
Defined.

Lemma targets_stable (s s' : session) (db db' : database) (taskId : uuid)
    (t t' : Task.row) :
  auth_uid s' = auth_uid s ->
  profiles db' = profiles db ->
  Task.id t' = Task.id t ->
  Task.assigned_to t' = Task.assigned_to t ->
  Store.targets s' db' taskId t' = Store.targets s db taskId t.
Proof.
  unfold Store.targets, Policy.tasks_select, Policy.tasks_update,
    Policy.is_assignee, Policy.is_manager, Policy.own_profile_id.
  now intros -> -> -> ->.
Qed.

(** X6.  Asking twice writes once.  When the same user repeats a call for
    the same task and status, from any screen and at any later time, the
    second call adds nothing to the audit trail and changes no status. *)
Theorem repeated_call_adds_no_entry
    (s s' : session) (client_now client_now' : timestamptz) (db : database)
    (taskId : uuid) (newStatus : task_status) :
  auth_uid s' = auth_uid s ->
  let db1 := snd (EmployeeDetailsDialog.updateTaskStatus s client_now db
                    taskId newStatus) in
  let db2 := snd (EmployeeDashboard.updateTaskStatus s' client_now' db1
                    taskId newStatus) in
  task_history db2 = task_history db1
  /\ map Task.status (tasks db2) = map Task.status (tasks db1).
Proof.
  intros Hu db1 db2. subst db2. rewrite updateTaskStatus_same.
  rewrite (updateTaskStatus_db s' db1 taskId client_now' newStatus).
  assert (H1 : db1 = mk_database (profiles db)
                 (map (step_row s db taskId client_now newStatus) (tasks db))
                 (task_history db
                  ++ logged s db taskId newStatus (tasks db)
                       (List.length (task_history db))))
    by apply updateTaskStatus_db.
  assert (Hst : forall t', In t' (tasks db1) ->
                  Store.targets s' db1 taskId t' = true ->
                  Task.status t' = newStatus).
  { rewrite H1. simpl. intros t' Hin Ht.
    apply in_map_iff in Hin as (r & <- & _).
    rewrite (targets_stable s s' db _ taskId r) in Ht;
      [|exact Hu|reflexivity|apply step_row_id|apply step_row_assigned_to].
    unfold step_row. now rewrite Ht. }
  simpl. split.
  - rewrite logged_none_targeted by exact Hst. apply app_nil_r.
  - rewrite map_map. apply map_ext_in. intros t' Hin.
    unfold step_row at 1.
    destruct (Store.targets s' db1 taskId t') eqn:Ht; [|reflexivity].
    simpl. symmetry. now apply Hst.
Qed.

Lemma repeated_call_adds_no_entry_witness :
  let db := Sample.db_of [Sample.task "t1" in_progress None 5 19732] in
  let db1 := snd (EmployeeDetailsDialog.updateTaskStatus (Sample.as_test 100)
                    101 db "t1" finished) in
  let db2 := snd (EmployeeDashboard.updateTaskStatus (Sample.as_test 200)
                    201 db1 "t1" finished) in
  task_history db2 = task_history db1
  /\ map Task.status (tasks db2) = map Task.status (tasks db1).
Proof.
  intros db.
  apply (repeated_call_adds_no_entry (Sample.as_test 100) (Sample.as_test 200)
           101 201 db "t1" finished).
  reflexivity.
Defined.

(** ** Any UPDATE on the tasks *)

Section AnyUpdate.

Variables (s : session) (db : database) (task_id : uuid) (p : Patch.t).

Lemma log_task_status_change_ok (hist hist' : list HistoryEntry.row)
    (OLD NEW N : Task.row) :
  Store.log_task_status_change s db hist OLD NEW = Ok (N, hist') ->
  (Task.status OLD = Task.status NEW /\ N = NEW /\ hist' = hist)
  \/ (Task.status OLD <> Task.status NEW
      /\ N = Task.with_completed_at
               (if task_status_eqb (Task.status NEW) finished
                then Some (now s) else None) NEW
      /\ exists c,
           Policy.own_profile_id s db = Some c
           /\ hist' = hist
                      ++ [HistoryEntry.mk
                            (gen_random_uuid s (List.length hist))
                            (Task.id NEW) (Some (Task.status OLD))
                            (Task.status NEW) c (now s)]).
Proof.
  unfold Store.log_task_status_change, Store.insert_task_history.
  destruct (task_status_eqb_spec (Task.status OLD) (Task.status NEW))
    as [E|E]; simpl.
  - intros [= <- <-]. now left.
  - destruct (Policy.task_history_insert s); simpl; [|discriminate].
    destruct (Policy.own_profile_id s db) as [c|]; simpl; [|discriminate].
    destruct (task_status_eqb (Task.status NEW) finished); simpl;
      intros [= <- <-]; right; eauto.
Qed.

Lemma update_row_ok (hist hist' : list HistoryEntry.row)
    (OLD NEW : Task.row) :
  Store.update_row s db p hist OLD = Ok (NEW, hist') ->
  Policy.tasks_update s db NEW = true
  /\ Task.id NEW = Task.id OLD
  /\ Task.created_at NEW = Task.created_at OLD
  /\ Task.assigned_to NEW
     = Patch.set (Patch.assigned_to p) (Task.assigned_to OLD)
  /\ Task.status NEW = Patch.set (Patch.status p) (Task.status OLD)
  /\ ((Task.status OLD = Task.status NEW /\ hist' = hist)
      \/ (Task.status OLD <> Task.status NEW
          /\ Task.completed_at NEW
             = (if task_status_eqb (Task.status NEW) finished
                then Some (now s) else None)
          /\ exists c,
               Policy.own_profile_id s db = Some c
               /\ hist' = hist
                          ++ [HistoryEntry.mk
                                (gen_random_uuid s (List.length hist))
                                (Task.id OLD) (Some (Task.status OLD))
                                (Task.status NEW) c (now s)])).
Proof.
  unfold Store.update_row.
  destruct (Store.log_task_status_change s db hist OLD (Patch.apply p OLD))
    as [[N h]|e] eqn:Hlog; simpl; [|discriminate].
  destruct (Policy.tasks_update s db (Store.update_updated_at_column s N))
    eqn:Hu; simpl; [|discriminate].
  destruct (_ || _); simpl; [|discriminate].
  destruct (_ || _); simpl; [|discriminate].
  intros [= <- <-].
  apply log_task_status_change_ok in Hlog.
  split; [exact Hu|].
  destruct Hlog as [(Es & -> & ->)|(Es & -> & c & Hc & ->)]; simpl.
  - repeat split. left. now split.
  - repeat split. right. split; [exact Es|]. split; [reflexivity|].
    exists c. now split.
Qed.

Lemma status_changes_cons (a b : Task.row) (l l' : list Task.row) :
  status_changes (a :: l) (b :: l')
  = ((if task_status_eqb (Task.status a) (Task.status b) then 0 else 1)
     + status_changes l l')%nat.
Proof.
  unfold status_changes. simpl.
  now destruct (task_status_eqb (Task.status a) (Task.status b)).
Qed.

Lemma update_rows_ok (rows : list Task.row) :
  forall hist rows' hist',
    Store.update_rows s db task_id p rows hist = Ok (rows', hist') ->
    Forall2 (fun OLD NEW =>
               (Store.targets s db task_id OLD = false /\ NEW = OLD)
               \/ (Store.targets s db task_id OLD = true
                   /\ exists h h', Store.update_row s db p h OLD
                                   = Ok (NEW, h')))
            rows rows'
    /\ List.length hist'
       = (List.length hist + status_changes rows rows')%nat.
Proof.
  induction rows as [|OLD rest IH]; intros hist rows' hist'; simpl.
  - intros [= <- <-]. split; [constructor|]. unfold status_changes. simpl. lia.
  - destruct (Store.targets s db task_id OLD) eqn:Ht.
    + destruct (Store.update_row s db p hist OLD) as [[NEW h1]|e] eqn:Hrow;
        simpl; [|discriminate].
      destruct (Store.update_rows s db task_id p rest h1) as [[r2 h2]|e]
        eqn:Hrest; simpl; [|discriminate].
      intros [= <- <-].
      destruct (IH _ _ _ Hrest) as [Hf Hlen].
      split; [constructor; [right; eauto|exact Hf]|].
      rewrite Hlen, status_changes_cons.
      apply update_row_ok in Hrow
        as (_ & _ & _ & _ & _ & [[Es ->]|(Es & _ & c & _ & ->)]).
      * rewrite Es, task_status_eqb_refl. lia.
      * destruct (task_status_eqb_spec (Task.status OLD) (Task.status NEW));
          [contradiction|].
        rewrite length_app. simpl. lia.
    + destruct (Store.update_rows s db task_id p rest hist) as [[r2 h2]|e]
        eqn:Hrest; simpl; [|discriminate].
      intros [= <- <-].
      destruct (IH _ _ _ Hrest) as [Hf Hlen].
      split; [constructor; [left; auto|exact Hf]|].
      now rewrite Hlen, status_changes_cons, task_status_eqb_refl.
Qed.

End AnyUpdate.

Lemma update_tasks_ok (s : session) (db db' : database) (task_id : uuid)
    (p : Patch.t) :
  Store.update_tasks s db task_id p = Ok db' ->
  profiles db' = profiles db
  /\ Forall2 (fun OLD NEW =>
                (Store.targets s db task_id OLD = false /\ NEW = OLD)
                \/ (Store.targets s db task_id OLD = true
                    /\ exists h h', Store.update_row s db p h OLD
                                    = Ok (NEW, h')))
             (tasks db) (tasks db')
  /\ List.length (task_history db')
     = (List.length (task_history db)
        + status_changes (tasks db) (tasks db'))%nat.
Proof.
  unfold Store.update_tasks.
  destruct (Store.update_rows s db task_id p (tasks db) (task_history db))
    as [[rows' hist']|e] eqn:H; simpl; [|discriminate].
  intros [= <-]. simpl. split; [reflexivity|].
  now apply (update_rows_ok s db task_id p).
Qed.

(** X7.  Every status change is logged, by whatever UPDATE it is made.
    For any SET list and any caller, a statement that succeeds leaves the
    audit trail longer by exactly the number of rows whose status it
    changed; it adds and removes no task and leaves the profiles alone. *)
Theorem any_update_logs_each_status_change
    (s : session) (db db' : database) (task_id : uuid) (p : Patch.t) :
  Store.update_tasks s db task_id p = Ok db' ->
  List.length (task_history db')
  = (List.length (task_history db)
     + status_changes (tasks db) (tasks db'))%nat
  /\ List.length (tasks db') = List.length (tasks db)
  /\ profiles db' = profiles db.
Proof.
  intros H. apply update_tasks_ok in H as (Hp & Hf & Hl).
  repeat split; [exact Hl| |exact Hp].
  symmetry. eapply Forall2_length. exact Hf.
Qed.

Lemma any_update_logs_each_status_change_witness :
  let db := Sample.db_of [Sample.task "t1" in_progress None 5 19732] in
  let p := Patch.mk (Some "Write the report again") None None None
             (Some finished) None (Some 19740) None in
  exists db',
    Store.update_tasks (Sample.as_admin 100) db "t1" p = Ok db'
    /\ List.length (task_history db')
       = (List.length (task_history db)
          + status_changes (tasks db) (tasks db'))%nat
    /\ List.length (tasks db') = List.length (tasks db)
    /\ profiles db' = profiles db.
Proof.
  intros db p. eexists. split; [reflexivity|].
  apply (any_update_logs_each_status_change (Sample.as_admin 100) db _
           "t1" p).
  reflexivity.
Defined.

(** X8.  The completion time of a status change cannot be chosen by the
    caller.  For any SET list, also one that sets [completed_at], a row
    whose status the statement changes ends with [completed_at] equal to
    the server's time if the new status is [finished], and null
    otherwise. *)
Theorem any_update_stamps_status_changes
    (s : session) (db db' : database) (task_id : uuid) (p : Patch.t) :
  Store.update_tasks s db task_id p = Ok db' ->
  Forall2 (fun OLD NEW =>
             Task.status NEW <> Task.status OLD ->
             Task.completed_at NEW
             = (if task_status_eqb (Task.status NEW) finished
                then Some (now s) else None))
          (tasks db) (tasks db').
Proof.
  intros H. apply update_tasks_ok in H as (_ & Hf & _).
  eapply Forall2_impl; [|exact Hf]. simpl.
  intros OLD NEW [[_ ->]|(_ & h & h' & Hrow)] Hne; [contradiction|].
  apply update_row_ok in Hrow
    as (_ & _ & _ & _ & _ & [[Es _]|(_ & Hc & _)]);
    [congruence|exact Hc].
Qed.

Lemma any_update_stamps_status_changes_witness :
  let db := Sample.db_of [Sample.task "t1" in_progress None 5 19732] in
  let p := Patch.mk None None None None (Some finished) None None
             (Some (Some 1704412800000)) in
  exists db',
    Store.update_tasks (Sample.as_test 1705276800000) db "t1" p = Ok db'
    /\ Forall2 (fun OLD NEW =>
                  Task.status NEW <> Task.status OLD ->
                  Task.completed_at NEW
                  = (if task_status_eqb (Task.status NEW) finished
                     then Some 1705276800000 else None))
               (tasks db) (tasks db').
Proof.
  intros db p. eexists. split; [reflexivity|].
  apply (any_update_stamps_status_changes (Sample.as_test 1705276800000)
           db _ "t1" p).
  reflexivity.
Defined.

Lemma not_manager_assignee (s : session) (db : database) (t : Task.row) :
  Policy.is_manager s db = false ->
  Policy.tasks_update s db t = Policy.is_assignee s db t.
Proof. unfold Policy.tasks_update. now intros ->. Qed.

Lemma is_assignee_assigned_to (s : session) (db : database)
    (a b : Task.row) :
  Policy.is_assignee s db a = true ->
  Policy.is_assignee s db b = true ->
  Task.assigned_to a = Task.assigned_to b.
Proof.
  unfold Policy.is_assignee.
  destruct (Policy.own_profile_id s db) as [c|]; [|discriminate].
  intros Ha Hb. apply String.eqb_eq in Ha, Hb. congruence.
Qed.

(** X9.  What a caller who is not a manager can never do with an UPDATE,
    whatever it sets: change a task that is not assigned to them, or
    change who any task is assigned to. *)
Theorem employee_update_stays_within_own_tasks
    (s : session) (db db' : database) (task_id : uuid) (p : Patch.t) :
  Policy.is_manager s db = false ->
  Store.update_tasks s db task_id p = Ok db' ->
  Forall2 (fun OLD NEW =>
             Task.assigned_to NEW = Task.assigned_to OLD
             /\ (Policy.is_assignee s db OLD = false -> NEW = OLD))
          (tasks db) (tasks db').
Proof.
  intros Hm H. apply update_tasks_ok in H as (_ & Hf & _).
  eapply Forall2_impl; [|exact Hf]. simpl.
  intros OLD NEW [[Ht ->]|(Ht & h & h' & Hrow)]; [now split|].
  apply targets_update in Ht as [_ Hu].
  rewrite (not_manager_assignee s db OLD Hm) in Hu.
  apply update_row_ok in Hrow as (Hn & _).
  rewrite (not_manager_assignee s db NEW Hm) in Hn.
  split; [now apply (is_assignee_assigned_to s db)|].
  intros E. congruence.
Qed.

Lemma employee_update_stays_within_own_tasks_witness :
  let db := Sample.db_of
              [Sample.task "t1" in_progress None 5 19732;
               Task.mk "t2" "Audit" None "p-idle" "p-admin" not_started
                 19723 19732 None 6 6] in
  let p := Patch.mk None None None None (Some finished) None
             (Some 19800) None in
  exists db',
    Store.update_tasks (Sample.as_test 100) db "t2" p = Ok db'
    /\ Forall2 (fun OLD NEW =>
                  Task.assigned_to NEW = Task.assigned_to OLD
                  /\ (Policy.is_assignee (Sample.as_test 100) db OLD = false
                      -> NEW = OLD))
               (tasks db) (tasks db').
Proof.
  intros db p. eexists. split; [reflexivity|].
  apply (employee_update_stays_within_own_tasks (Sample.as_test 100)
           db _ "t2" p); reflexivity.
Defined.

(** ** Who sees which tasks *)

Lemma filter_filter_and {A : Type} (f g : A -> bool) (l : list A) :
  filter f (filter g l) = filter (fun x => f x && g x) l.
Proof.
  induction l as [|x l IH]; simpl; [reflexivity|].
  destruct (g x); simpl; [|now rewrite andb_false_r].
  rewrite andb_true_r. destruct (f x); now rewrite IH.
Qed.

Lemma filter_permutation {A : Type} (f : A -> bool) (l l' : list A) :
  Permutation l l' -> Permutation (filter f l) (filter f l').
Proof.
  induction 1 as [|x l l' _ IH|x y l|l l' l'' _ IH1 _ IH2]; simpl.
  - constructor.
  - destruct (f x); [now constructor|exact IH].
  - destruct (f x), (f y); try reflexivity. apply perm_swap.
  - now transitivity (filter f l').
Qed.

Lemma own_task_is_visible (s : session) (db : database) (p : Profile.row)
    (t : Task.row) :
  Policy.own_profile_id s db = Some (Profile.id p) ->
  String.eqb (Task.assigned_to t) (Profile.id p) = true ->
  Policy.tasks_select s db t = true.
Proof.
  intros Ho Ha. unfold Policy.tasks_select, Policy.is_assignee.
  now rewrite Ho, Ha.
Qed.

Lemma own_tasks_listed (s : session) (db : database) (p : Profile.row)
    (st : list Task.row) :
  Policy.own_profile_id s db = Some (Profile.id p) ->
  Permutation
    (filter (fun t => String.eqb (Task.assigned_to t) (Profile.id p))
            (tasks db))
    (EmployeeDashboard.fetchTasks s (Some p) db st).
Proof.
  intros Ho. unfold EmployeeDashboard.fetchTasks, Store.select_tasks.
  rewrite <- order_by_permutation, filter_filter_and.
  erewrite filter_ext_in; [reflexivity|].
  intros t _. simpl.
  destruct (String.eqb (Task.assigned_to t) (Profile.id p)) eqn:Ha;
    [|reflexivity].
  now rewrite (own_task_is_visible s db p t Ho Ha).
Qed.

Lemma manager_sees_all_tasks (s : session) (db : database) :
  Policy.is_manager s db = true ->
  Permutation (tasks db) (ManagerDashboard.fetchTasks s db).
Proof.
  intros Hm. unfold ManagerDashboard.fetchTasks, Store.select_tasks.
  rewrite <- order_by_permutation.
  replace (filter (Policy.tasks_select s db) (tasks db)) with (tasks db);
    [reflexivity|].
  symmetry. apply forallb_filter_id. apply forallb_forall. intros t _.
  unfold Policy.tasks_select. rewrite Hm. apply orb_true_r.
Qed.

(** X10.  An employee's dashboard lists all of their tasks and nothing
    else: for a signed-in user whose profile is [p], the list is a
    rearrangement of the rows of [tasks] that are assigned to [p]. *)
Theorem employee_dashboard_lists_own_tasks
    (s : session) (db : database) (p : Profile.row) (st : list Task.row) :
  Policy.own_profile_id s db = Some (Profile.id p) ->
  Permutation
    (filter (fun t => String.eqb (Task.assigned_to t) (Profile.id p))
            (tasks db))
    (EmployeeDashboard.fetchTasks s (Some p) db st).
Proof. apply own_tasks_listed. Qed.

Lemma employee_dashboard_lists_own_tasks_witness :
  let db := Sample.db_of
              [Sample.task "t1" in_progress None 5 19740;
               Task.mk "t2" "Audit" None "p-idle" "p-admin" not_started
                 19723 19732 None 6 6;
               Sample.task "t3" not_started None 7 19732] in
  Permutation
    (filter (fun t => String.eqb (Task.assigned_to t)
                                 (Profile.id Sample.test)) (tasks db))
    (EmployeeDashboard.fetchTasks (Sample.as_test 100) (Some Sample.test)
       db []).
Proof.
  intros db.
  apply (employee_dashboard_lists_own_tasks (Sample.as_test 100) db
           Sample.test []).
  reflexivity.
Defined.

(** X11.  Nobody reads another employee's tasks through the employee
    dashboard: when the caller is not a manager and the profile the
    component holds is not the caller's own -- nobody is signed in, or the
    profile in the browser is someone else's -- the list is empty. *)
Theorem employee_dashboard_hides_others_tasks
    (s : session) (db : database) (p : Profile.row) (st : list Task.row) :
  Policy.is_manager s db = false ->
  Policy.own_profile_id s db <> Some (Profile.id p) ->
  EmployeeDashboard.fetchTasks s (Some p) db st = [].
Proof.
  intros Hm Ho. unfold EmployeeDashboard.fetchTasks, Store.select_tasks.
  rewrite filter_filter_and.
  replace (filter _ (tasks db)) with (@nil Task.row); [reflexivity|].
  symmetry. induction (tasks db) as [|t rest IH]; simpl; [reflexivity|].
  rewrite <- IH.
  destruct (String.eqb_spec (Task.assigned_to t) (Profile.id p)) as [E|E];
    [|reflexivity].
  unfold Policy.tasks_select, Policy.is_assignee. rewrite Hm. simpl.
  destruct (Policy.own_profile_id s db) as [c|]; [|reflexivity].
  destruct (String.eqb_spec (Task.assigned_to t) c) as [E'|E'];
    [|reflexivity].
  exfalso. apply Ho. congruence.
Qed.

Lemma employee_dashboard_hides_others_tasks_witness :
  let db := Sample.db_of
              [Sample.task "t1" in_progress None 5 19740;
               Sample.task "t3" not_started None 7 19732] in
  EmployeeDashboard.fetchTasks (Sample.as_idle 100) (Some Sample.test) db []
  = [].
Proof.
  intros db.
  apply (employee_dashboard_hides_others_tasks (Sample.as_idle 100) db
           Sample.test []).
  - reflexivity.
  - discriminate.
Defined.

(** X12.  The manager dashboard's list is every task for a manager, and
    only the caller's own tasks for anyone else who opens it. *)
Theorem manager_dashboard_lists_by_role (s : session) (db : database) :
  (Policy.is_manager s db = true ->
   Permutation (tasks db) (ManagerDashboard.fetchTasks s db))
  /\ (Policy.is_manager s db = false ->
      Forall (fun t => Policy.is_assignee s db t = true)
             (ManagerDashboard.fetchTasks s db)).
Proof.
  split; intros Hm; [now apply manager_sees_all_tasks|].
  unfold ManagerDashboard.fetchTasks, Store.select_tasks.
  - eapply Permutation_Forall; [apply order_by_permutation|].
    apply Forall_forall. intros t Hin. apply filter_In in Hin as [_ Hs].
    unfold Policy.tasks_select in Hs. rewrite Hm in Hs.
    now rewrite orb_false_r in Hs.
Qed.

Lemma manager_dashboard_lists_by_role_witness :
  let db := Sample.db_of
              [Sample.task "t1" in_progress None 5 19740;
               Task.mk "t2" "Audit" None "p-idle" "p-admin" not_started
                 19723 19732 None 6 6] in
  Permutation (tasks db) (ManagerDashboard.fetchTasks (Sample.as_admin 9) db)
  /\ Forall (fun t => Policy.is_assignee (Sample.as_test 9) db t = true)
            (ManagerDashboard.fetchTasks (Sample.as_test 9) db).
Proof.
  intros db. split.
  - apply (proj1 (manager_dashboard_lists_by_role (Sample.as_admin 9) db)).
    reflexivity.
  - apply (proj2 (manager_dashboard_lists_by_role (Sample.as_test 9) db)).
    reflexivity.
Defined.

(** ** The figures on the dashboards *)

Lemma status_counts_add_up (tasks : list Task.row) :
  (List.length
     (filter (fun t => task_status_eqb (Task.status t) finished) tasks)
   + List.length
       (filter (fun t => task_status_eqb (Task.status t) in_progress) tasks)
   + List.length
       (filter (fun t => task_status_eqb (Task.status t) not_started) tasks)
   = List.length tasks)%nat.
Proof.
  induction tasks as [|t rest IH]; simpl; [reflexivity|].
  destruct (Task.status t); simpl; lia.
Qed.

(** X13.  The three counts on a dashboard are counts of a partition: the
    numbers of finished, in-progress and not-started tasks add up to the
    total. *)
Theorem getTaskStats_counts_add_up (tasks : list Task.row) :
  let st := EmployeeDetailsDialog.getTaskStats tasks in
  exists done doing todo : nat,
    EmployeeDetailsDialog.completed st = JS.of_nat done
    /\ EmployeeDetailsDialog.inProgress st = JS.of_nat doing
    /\ EmployeeDetailsDialog.notStarted st = JS.of_nat todo
    /\ EmployeeDetailsDialog.total st = JS.of_nat (done + doing + todo).
Proof.
  simpl. do 3 eexists. repeat split.
  unfold EmployeeDetailsDialog.getTaskStats. simpl.
  now rewrite status_counts_add_up.
Qed.

Lemma filter_length_permutation {A : Type} (f : A -> bool) (l l' : list A) :
  Permutation l l' ->
  List.length (filter f l) = List.length (filter f l').
Proof.
  intros H. apply Permutation_length. now apply filter_permutation.
Qed.

Lemma getTaskStats_permutation (l l' : list Task.row) :
  Permutation l l' ->
  EmployeeDetailsDialog.getTaskStats l = EmployeeDetailsDialog.getTaskStats l'.
Proof.
  intros H. unfold EmployeeDetailsDialog.getTaskStats,
    EmployeeDetailsDialog.count.
  rewrite (Permutation_length H).
  rewrite (filter_length_permutation
             (fun task => task_status_eqb (Task.status task) finished) l l' H).
  rewrite (filter_length_permutation
             (fun task => task_status_eqb (Task.status task) in_progress)
             l l' H).
  rewrite (filter_length_permutation
             (fun task => task_status_eqb (Task.status task) not_started)
             l l' H).
  rewrite (filter_length_permutation finished_with_timestamp l l' H).
  rewrite (filter_length_permutation completed_by_deadline
             (filter finished_with_timestamp l)
             (filter finished_with_timestamp l')
             (filter_permutation finished_with_timestamp l l' H)).
  reflexivity.
Qed.

(** X14.  An employee and their manager read the same figures.  From one
    state of the database, the statistics on an employee's own dashboard
    are those the manager's details dialog shows for that employee, though
    the two lists are fetched in different orders. *)
Theorem employee_and_manager_see_same_stats
    (sE sM : session) (db : database) (p : Profile.row)
    (st : list Task.row) :
  Policy.own_profile_id sE db = Some (Profile.id p) ->
  Policy.is_manager sM db = true ->
  EmployeeDashboard.getTaskStats
    (EmployeeDashboard.fetchTasks sE (Some p) db st)
  = EmployeeDetailsDialog.getTaskStats
      (ManagerDashboard.tasks_of_selected
         (ManagerDashboard.fetchTasks sM db) p).
Proof.
  intros Ho Hm. unfold EmployeeDashboard.getTaskStats.
  apply getTaskStats_permutation.
  transitivity (filter (fun t => String.eqb (Task.assigned_to t)
                                            (Profile.id p)) (tasks db)).
  - symmetry. now apply own_tasks_listed.
  - unfold ManagerDashboard.tasks_of_selected. apply filter_permutation.
    now apply manager_sees_all_tasks.
Qed.

Lemma employee_and_manager_see_same_stats_witness :
  let db := Sample.db_of
              [Sample.task "t1" finished (Some 1704412800000) 5 19740;
               Task.mk "t2" "Audit" None "p-idle" "p-admin" not_started
                 19723 19732 None 6 6;
               Sample.task "t3" not_started None 7 19732] in
  EmployeeDashboard.getTaskStats
    (EmployeeDashboard.fetchTasks (Sample.as_test 9) (Some Sample.test) db [])
  = EmployeeDetailsDialog.getTaskStats
      (ManagerDashboard.tasks_of_selected
         (ManagerDashboard.fetchTasks (Sample.as_admin 9) db) Sample.test).
Proof.
  intros db.
  apply (employee_and_manager_see_same_stats (Sample.as_test 9)
           (Sample.as_admin 9) db Sample.test []); reflexivity.
Defined.

(** X15.  The manager's list and the details dialog agree.  For every
    employee, the progress bar and the on-time percentage of the
    employee's line on the manager dashboard are the completion rate and
    the on-time rate of the details dialog opened from that line, and so
    are the two counts. *)
Theorem manager_list_matches_details_dialog
    (tasks : list Task.row) (e : Profile.row) :
  let line := ManagerDashboard.getEmployeeProgress tasks (Profile.id e) in
  let dialog := EmployeeDetailsDialog.getTaskStats
                  (ManagerDashboard.tasks_of_selected tasks e) in
  ManagerDashboard.total line = EmployeeDetailsDialog.total dialog
  /\ ManagerDashboard.completed line = EmployeeDetailsDialog.completed dialog
  /\ ManagerDashboard.percentage line
     = EmployeeDetailsDialog.completionRate dialog
  /\ ManagerDashboard.getOnTimeCompletionRate tasks (Profile.id e)
     = EmployeeDetailsDialog.onTimeRate dialog.
Proof.
  simpl. repeat split. apply getOnTimeCompletionRate_onTimeRate.
Qed.

(** X16.  The "Overdue" badge and the on-time rate draw the same line.  A
    finished task is never overdue; an unfinished one is overdue at an
    instant exactly when finishing it at that instant would count as late,
    that is from the first millisecond after midnight UTC opening its
    deadline day.  Both components compute the badge alike. *)
Theorem overdue_iff_finishing_now_is_late
    (client_now : timestamptz) (t : Task.row) :
  EmployeeDetailsDialog.isOverdue client_now (Task.deadline_date t) finished
  = false
  /\ (Task.status t <> finished ->
      EmployeeDetailsDialog.isOverdue client_now (Task.deadline_date t)
        (Task.status t)
      = negb (completed_by_deadline
                (Task.with_completed_at (Some client_now) t)))
  /\ EmployeeDashboard.isOverdue client_now (Task.deadline_date t)
       (Task.status t)
     = EmployeeDetailsDialog.isOverdue client_now (Task.deadline_date t)
         (Task.status t).
Proof.
  repeat split. intros Hne.
  unfold EmployeeDetailsDialog.isOverdue, completed_by_deadline,
    Date_of_timestamp. simpl.
  destruct (task_status_eqb_spec (Task.status t) finished);
    [contradiction|].
  now rewrite Z.leb_antisym, negb_involutive.
Qed.

Lemma overdue_iff_finishing_now_is_late_witness :
  let t := Sample.task "t1" in_progress None 5 19732 in
  let noon := 19732 * ms_per_day + 43200000 in
  EmployeeDetailsDialog.isOverdue noon (Task.deadline_date t) (Task.status t)
  = negb (completed_by_deadline (Task.with_completed_at (Some noon) t)).
Proof.
  intros t noon.
  apply (proj1 (proj2 (overdue_iff_finishing_now_is_late noon t))).
  discriminate.
Defined.

(** ** Assigning a task *)

Lemma insert_task_ok_caller (s : session) (db db' : database)
    (title description : string) (assigned_to : uuid)
    (assigned_by : option uuid) (start_date deadline_date : date)
    (status : task_status) :
  Store.insert_task s db title description assigned_to assigned_by
    start_date deadline_date status = Ok db' ->
  Policy.is_manager s db = true
  /\ exists by_, assigned_by = Some by_
                 /\ Store.references_profile db by_ = true.
Proof.
  unfold Store.insert_task, Policy.tasks_insert.
  destruct assigned_by as [by_|]; [|discriminate].
  destruct (Policy.is_manager s db); simpl; [|discriminate].
  destruct (Store.references_profile db assigned_to); simpl; [|discriminate].
  destruct (Store.references_profile db by_) eqn:Hb; simpl; [|discriminate].
  eauto.
Qed.

Lemma handleSubmit_succeeds (s : session) (p : Profile.row)
    (form : AddTaskDialog.formData) (db : database) (start deadline : date) :
  AddTaskDialog.title form <> "" ->
  AddTaskDialog.assigned_to form <> "" ->
  AddTaskDialog.start_date form = Some start ->
  AddTaskDialog.deadline_date form = Some deadline ->
  start <= deadline ->
  Policy.is_manager s db = true ->
  Store.references_profile db (AddTaskDialog.assigned_to form) = true ->
  Store.references_profile db (Profile.id p) = true ->
  AddTaskDialog.handleSubmit s (Some p) form db
  = (mk_toast "Success" "Task assigned successfully" default,
     AddTaskDialog.empty_form,
     mk_database (profiles db)
       (tasks db
        ++ [Task.mk (gen_random_uuid s (List.length (tasks db)))
              (AddTaskDialog.title form)
              (Some (AddTaskDialog.description form))
              (AddTaskDialog.assigned_to form) (Profile.id p) not_started
              start deadline None (now s) (now s)])
       (task_history db)).
Proof.
  intros Ht Ha Hs Hd Hle Hm Hra Hrp. unfold AddTaskDialog.handleSubmit.
  rewrite Hs, Hd.
  apply String.eqb_neq in Ht, Ha. rewrite Ht, Ha. simpl.
  assert (Hgt : (Date_of_date start >? Date_of_date deadline) = false).
  { unfold Date_of_date, ms_per_day.
    destruct (Z.gtb_spec (start * 86400000) (deadline * 86400000));
      [lia|reflexivity]. }
  rewrite Hgt. unfold Policy.tasks_insert. now rewrite Hm, Hra, Hrp.
Qed.

Lemma handleSubmit_success_inv (s : session) (profile : option Profile.row)
    (form : AddTaskDialog.formData) (db : database) :
  variant (fst (fst (AddTaskDialog.handleSubmit s profile form db)))
  = default ->
  exists p start deadline,
    profile = Some p
    /\ AddTaskDialog.title form <> ""
    /\ AddTaskDialog.assigned_to form <> ""
    /\ AddTaskDialog.start_date form = Some start
    /\ AddTaskDialog.deadline_date form = Some deadline
    /\ start <= deadline
    /\ Policy.is_manager s db = true
    /\ Store.references_profile db (AddTaskDialog.assigned_to form) = true
    /\ Store.references_profile db (Profile.id p) = true.
Proof.
  unfold AddTaskDialog.handleSubmit.
  destruct (AddTaskDialog.start_date form) as [start|]; [|discriminate].
  destruct (AddTaskDialog.deadline_date form) as [deadline|];
    [|discriminate].
  destruct (String.eqb_spec (AddTaskDialog.title form) "") as [Et|Et];
    simpl; [discriminate|].
  destruct (String.eqb_spec (AddTaskDialog.assigned_to form) "") as [Ea|Ea];
    simpl; [discriminate|].
  destruct (Date_of_date start >? Date_of_date deadline) eqn:Ed;
    [discriminate|].
  destruct (Store.insert_task s db _ _ _ _ _ _ _) as [db'|e] eqn:Hi;
    [|discriminate].
  intros _.
  pose proof (insert_task_ok _ _ _ _ _ _ _ _ _ _ Hi) as (Hra & _).
  apply insert_task_ok_caller in Hi as (Hm & by_ & Hby & Hrb).
  destruct profile as [p|]; [|discriminate].
  injection Hby as <-.
  exists p, start, deadline. repeat split; auto.
  unfold Date_of_date, ms_per_day in Ed.
  destruct (Z.gtb_spec (start * 86400000) (deadline * 86400000));
    [discriminate|lia].
Qed.

(** X17.  When a task gets assigned.  [handleSubmit] announces success
    exactly when the title and the assignee are filled in, both dates are
    given with the start not after the deadline, the session is a
    manager's, the assignee is the id of a profile, and the component holds
    a profile whose id is in the table. *)
Theorem handleSubmit_succeeds_iff
    (s : session) (profile : option Profile.row)
    (form : AddTaskDialog.formData) (db : database) :
  variant (fst (fst (AddTaskDialog.handleSubmit s profile form db)))
  = default
  <-> (exists p start deadline,
         profile = Some p
         /\ AddTaskDialog.title form <> ""
         /\ AddTaskDialog.assigned_to form <> ""
         /\ AddTaskDialog.start_date form = Some start
         /\ AddTaskDialog.deadline_date form = Some deadline
         /\ start <= deadline
         /\ Policy.is_manager s db = true
         /\ Store.references_profile db (AddTaskDialog.assigned_to form)
            = true
         /\ Store.references_profile db (Profile.id p) = true).
Proof.
  split; [apply handleSubmit_success_inv|].
  intros (p & start & deadline & -> & Ht & Ha & Hs & Hd & Hle & Hm & Hra & Hrp).
  now rewrite (handleSubmit_succeeds s p form db start deadline).
Qed.

(** X18.  What a successful submission leaves behind.  The new row is the
    last of the table; it carries the form's title, description, assignee
    and dates, the submitting manager's profile as assigner and the
    server's time; its start is not after its deadline; every other task,
    the audit trail and the profiles are as before, and the form is
    cleared.  A submission that fails keeps the form as it was typed. *)
Theorem handleSubmit_result
    (s : session) (profile : option Profile.row)
    (form : AddTaskDialog.formData) (db : database) :
  let r := AddTaskDialog.handleSubmit s profile form db in
  (variant (fst (fst r)) = default ->
   exists NEW p,
     profile = Some p
     /\ snd r = mk_database (profiles db) (tasks db ++ [NEW])
                  (task_history db)
     /\ snd (fst r) = AddTaskDialog.empty_form
     /\ Task.title NEW = AddTaskDialog.title form
     /\ Task.description NEW = Some (AddTaskDialog.description form)
     /\ Task.assigned_to NEW = AddTaskDialog.assigned_to form
     /\ Task.assigned_by NEW = Profile.id p
     /\ Some (Task.start_date NEW) = AddTaskDialog.start_date form
     /\ Some (Task.deadline_date NEW) = AddTaskDialog.deadline_date form
     /\ Task.start_date NEW <= Task.deadline_date NEW
     /\ Task.created_at NEW = now s
     /\ Task.updated_at NEW = now s)
  /\ (variant (fst (fst r)) = destructive ->
      snd (fst r) = form /\ snd r = db).
Proof.
  intros r. subst r. split.
  - intros H. apply handleSubmit_success_inv in H
      as (p & start & deadline & -> & Ht & Ha & Hs & Hd & Hle & Hm & Hra & Hrp).
    rewrite (handleSubmit_succeeds s p form db start deadline) by assumption.
    simpl. eexists. exists p. rewrite Hs, Hd. simpl. repeat split. exact Hle.
  - unfold AddTaskDialog.handleSubmit.
    destruct (AddTaskDialog.start_date form) as [start|]; [|now split].
    destruct (AddTaskDialog.deadline_date form) as [deadline|];
      [|now split].
    destruct (_ || _); [now split|].
    destruct (_ >? _); [now split|].
    destruct (Store.insert_task s db _ _ _ _ _ _ _); simpl;
      [discriminate|now split].
Qed.

Lemma handleSubmit_result_witness :
  let db := Sample.db_of [Sample.task "t1" finished (Some 7) 5 19732] in
  let r := AddTaskDialog.handleSubmit (Sample.as_admin 50)
             (Some Sample.admin) (Sample.report_form "p-idle") db in
  let r' := AddTaskDialog.handleSubmit (Sample.as_test 50)
              (Some Sample.test) (Sample.report_form "p-idle") db in
  (exists NEW p,
     Some Sample.admin = Some p
     /\ snd r = mk_database (profiles db) (tasks db ++ [NEW])
                  (task_history db)
     /\ snd (fst r) = AddTaskDialog.empty_form
     /\ Task.title NEW = "Write the report"
     /\ Task.description NEW = Some ""
     /\ Task.assigned_to NEW = "p-idle"
     /\ Task.assigned_by NEW = Profile.id p
     /\ Some (Task.start_date NEW) = Some 19723
     /\ Some (Task.deadline_date NEW) = Some 19732
     /\ Task.start_date NEW <= Task.deadline_date NEW
     /\ Task.created_at NEW = 50
     /\ Task.updated_at NEW = 50)
  /\ (snd (fst r') = Sample.report_form "p-idle" /\ snd r' = db).
Proof.
  intros db. split.
  - apply (proj1 (handleSubmit_result (Sample.as_admin 50)
                    (Some Sample.admin) (Sample.report_form "p-idle") db)).
    reflexivity.
  - apply (proj2 (handleSubmit_result (Sample.as_test 50)
                    (Some Sample.test) (Sample.report_form "p-idle") db)).
    reflexivity.
Defined.

(** X19.  A task that was assigned can be found.  After a successful
    submission the new task, not started, is on the dashboard of the
    employee it was assigned to and on the dashboard of the manager who
    assigned it. *)
Theorem created_task_reaches_assignee
    (s sE : session) (profile : option Profile.row)
    (form : AddTaskDialog.formData) (db : database) (p : Profile.row)
    (st : list Task.row) :
  let r := AddTaskDialog.handleSubmit s profile form db in
  variant (fst (fst r)) = default ->
  Policy.own_profile_id sE db = Some (Profile.id p) ->
  Profile.id p = AddTaskDialog.assigned_to form ->
  exists NEW,
    Task.title NEW = AddTaskDialog.title form
    /\ Task.status NEW = not_started
    /\ In NEW (EmployeeDashboard.fetchTasks sE (Some p) (snd r) st)
    /\ In NEW (ManagerDashboard.fetchTasks s (snd r)).
Proof.
  intros r H Ho Hp. subst r.
  apply handleSubmit_success_inv in H
    as (m & start & deadline & -> & Ht & Ha & Hs & Hd & Hle & Hm & Hra & Hrp).
  rewrite (handleSubmit_succeeds s m form db start deadline) by assumption.
  simpl.
  exists (Task.mk (gen_random_uuid s (List.length (tasks db)))
            (AddTaskDialog.title form)
            (Some (AddTaskDialog.description form))
            (AddTaskDialog.assigned_to form) (Profile.id m) not_started
            start deadline None (now s) (now s)).
  split; [reflexivity|]. split; [reflexivity|]. split.
  - eapply Permutation_in; [apply (own_tasks_listed sE _ p st); exact Ho|].
    apply filter_In. simpl. split.
    + apply in_or_app. right. now left.
    + rewrite Hp. apply String.eqb_refl.
  - eapply Permutation_in; [apply manager_sees_all_tasks; exact Hm|].
    simpl. apply in_or_app. right. now left.
Qed.

Lemma created_task_reaches_assignee_witness :
  let db := Sample.db_of [Sample.task "t1" finished (Some 7) 5 19732] in
  let r := AddTaskDialog.handleSubmit (Sample.as_admin 50)
             (Some Sample.admin) (Sample.report_form "p-test") db in
  exists NEW,
    Task.title NEW = "Write the report"
    /\ Task.status NEW = not_started
    /\ In NEW (EmployeeDashboard.fetchTasks (Sample.as_test 60)
                 (Some Sample.test) (snd r) [])
    /\ In NEW (ManagerDashboard.fetchTasks (Sample.as_admin 50) (snd r)).
Proof.
  intros db.
  apply (created_task_reaches_assignee (Sample.as_admin 50)
           (Sample.as_test 60) (Some Sample.admin)
           (Sample.report_form "p-test") db Sample.test []);
    reflexivity.
Defined.

(** ** The employees a manager can pick *)

Lemma ascii_compare_trans (a b c : ascii) (o : comparison) :
  Ascii.compare a b = o -> Ascii.compare b c = o -> Ascii.compare a c = o.
Proof.
  unfold Ascii.compare. destruct o; intros H1 H2.
  - apply N.compare_eq_iff in H1, H2. apply N.compare_eq_iff. congruence.
  - rewrite N.compare_lt_iff in *. lia.
  - rewrite N.compare_gt_iff in *. lia.
Qed.

Lemma string_compare_refl (a : string) : String.compare a a = Eq.
Proof.
  induction a as [|x a IH]; simpl; [reflexivity|].
  unfold Ascii.compare. now rewrite N.compare_refl.
Qed.

Lemma string_compare_lt_trans (a : string) :
  forall b c, String.compare a b = Lt -> String.compare b c = Lt ->
              String.compare a c = Lt.
Proof.
  induction a as [|x a IH]; intros [|y b] [|z c]; simpl; try congruence.
  destruct (Ascii.compare x y) eqn:Hxy, (Ascii.compare y z) eqn:Hyz;
    try congruence; intros H1 H2.
  - rewrite (ascii_compare_trans x y z Eq Hxy Hyz). eauto.
  - apply Ascii.compare_eq_iff in Hxy. subst. now rewrite Hyz.
  - apply Ascii.compare_eq_iff in Hyz. subst. now rewrite Hxy.
  - now rewrite (ascii_compare_trans x y z Lt Hxy Hyz).
Qed.

Lemma string_leb_trans (a b c : string) :
  String.leb a b = true -> String.leb b c = true -> String.leb a c = true.
Proof.
  unfold String.leb.
  destruct (String.compare a b) eqn:Hab; try discriminate;
    destruct (String.compare b c) eqn:Hbc; try discriminate; intros _ _.
  - apply String.compare_eq_iff in Hab, Hbc. subst.
    now rewrite string_compare_refl.
  - apply String.compare_eq_iff in Hab. subst. now rewrite Hbc.
  - apply String.compare_eq_iff in Hbc. subst. now rewrite Hab.
  - now rewrite (string_compare_lt_trans a b c Hab Hbc).
Qed.

Lemma employees_listed (collate : string -> string -> bool)
    (s : session) (db : database) :
  Permutation
    (filter (fun p => user_role_eqb (Profile.role p) employee) (profiles db))
    (ManagerDashboard.fetchEmployees collate s db).
Proof.
  unfold ManagerDashboard.fetchEmployees, Store.select_profiles.
  rewrite <- order_by_permutation.
  replace (filter (Policy.profiles_select s db) (profiles db))
    with (profiles db); [reflexivity|].
  symmetry. apply forallb_filter_id. now apply forallb_forall.
Qed.

(** X20.  The list of employees.  Whoever asks, signed in or not, gets
    every profile whose role is employee -- the inactive ones too -- and
    no manager; when the database's collation is a total preorder, the
    list is in the order of the full names. *)
Theorem fetchEmployees_lists_employees
    (collate : string -> string -> bool) (s : session) (db : database) :
  Permutation
    (filter (fun p => user_role_eqb (Profile.role p) employee) (profiles db))
    (ManagerDashboard.fetchEmployees collate s db)
  /\ ((forall a b, collate a b = true \/ collate b a = true) ->
      (forall a b c, collate a b = true -> collate b c = true ->
                     collate a c = true) ->
      StronglySorted
        (fun a b => collate (Profile.full_name a) (Profile.full_name b)
                    = true)
        (ManagerDashboard.fetchEmployees collate s db)).
Proof.
  split; [apply employees_listed|].
  intros Htot Htr. unfold ManagerDashboard.fetchEmployees.
  apply order_by_sorted.
  - intros a b. apply Htot.
  - intros a b c. apply Htr.
Qed.

Lemma fetchEmployees_lists_employees_witness :
  StronglySorted
    (fun a b => String.leb (Profile.full_name a) (Profile.full_name b)
                = true)
    (ManagerDashboard.fetchEmployees String.leb (Sample.anonymous 0)
       (Sample.db_of [])).
Proof.
  apply (proj2 (fetchEmployees_lists_employees String.leb
                  (Sample.anonymous 0) (Sample.db_of []))).
  - apply String.leb_total.
  - apply string_leb_trans.
Defined.

Lemma listed_employee_is_referenced (collate : string -> string -> bool)
    (s : session) (db : database) (e : Profile.row) :
  In e (ManagerDashboard.fetchEmployees collate s db) ->
  Store.references_profile db (Profile.id e) = true.
Proof.
  intros H.
  eapply Permutation_in in H; [|symmetry; apply employees_listed].
  apply filter_In in H as [H _].
  unfold Store.references_profile. apply existsb_exists.
  exists e. split; [exact H|apply String.eqb_refl].
Qed.

(** X21.  Every employee on the menu can be given a task.  When a manager
    is signed in and picks any entry of the employee list, active or not,
    a submission with a title and a start date not after the deadline
    succeeds. *)
Theorem listed_employee_can_be_assigned
    (collate : string -> string -> bool) (s : session) (db : database)
    (m e : Profile.row) (form : AddTaskDialog.formData)
    (start deadline : date) :
  Policy.is_manager s db = true ->
  In m (profiles db) ->
  In e (ManagerDashboard.fetchEmployees collate s db) ->
  AddTaskDialog.assigned_to form = Profile.id e ->
  Profile.id e <> "" ->
  AddTaskDialog.title form <> "" ->
  AddTaskDialog.start_date form = Some start ->
  AddTaskDialog.deadline_date form = Some deadline ->
  start <= deadline ->
  variant (fst (fst (AddTaskDialog.handleSubmit s (Some m) form db)))
  = default.
Proof.
  intros Hm Hin He Ha Hid Ht Hs Hd Hle.
  rewrite (handleSubmit_succeeds s m form db start deadline); auto.
  - congruence.
  - rewrite Ha. now apply (listed_employee_is_referenced collate s).
  - unfold Store.references_profile. apply existsb_exists.
    exists m. split; [exact Hin|apply String.eqb_refl].
Qed.

Lemma listed_employee_can_be_assigned_witness :
  let db := Sample.db_of [] in
  variant (fst (fst (AddTaskDialog.handleSubmit (Sample.as_admin 50)
                       (Some Sample.admin) (Sample.report_form "p-idle")
                       db)))
  = default.
Proof.
  intros db.
  apply (listed_employee_can_be_assigned String.leb (Sample.as_admin 50) db
           Sample.admin Sample.idle (Sample.report_form "p-idle")
           19723 19732).
  - reflexivity.
  - now left.
  - vm_compute. now left.
  - reflexivity.
  - discriminate.
  - discriminate.
  - reflexivity.
  - reflexivity.
  - lia.
Defined.

(** ** Adding an employee *)

Lemma existsb_false_not_in (key : Profile.row -> string) (k : string)
    (l : list Profile.row) :
  existsb (fun p => String.eqb (key p) k) l = false ->
  ~ In k (map key l).
Proof.
  intros H Hin. apply in_map_iff in Hin as (p & <- & Hp).
  assert (E : existsb (fun q => String.eqb (key q) (key p)) l = true)
    by (apply existsb_exists; exists p; split;
        [exact Hp|apply String.eqb_refl]).
  congruence.
Qed.

Lemma insert_profile_inv (s : session) (db db' : database)
    (user_id : uuid) (username full_name title : string) (role : user_role)
    (position details : string) :
  Store.insert_profile s db user_id username full_name title role
    position details = inr db' ->
  Policy.is_manager s db = true
  /\ ~ In user_id (map Profile.user_id (profiles db))
  /\ ~ In username (map Profile.username (profiles db))
  /\ db' = mk_database
             (profiles db
              ++ [Profile.mk (gen_random_uuid s (List.length (profiles db)))
                    user_id username full_name (Some title) role
                    (Some position) (Some details) true (now s) (now s)])
             (tasks db) (task_history db).
Proof.
  unfold Store.insert_profile, Policy.profiles_insert.
  destruct (Policy.is_manager s db); simpl; [|discriminate].
  destruct (existsb (fun p => String.eqb (Profile.user_id p) user_id)
                    (profiles db)) eqn:Hu; [discriminate|].
  destruct (existsb (fun p => String.eqb (Profile.username p) username)
                    (profiles db)) eqn:Hn; [discriminate|].
  intros H. inversion H; subst. repeat split.
  - now apply (existsb_false_not_in Profile.user_id).
  - now apply (existsb_false_not_in Profile.username).
Qed.

Lemma addEmployee_cases
    (signUp : string -> string -> string -> AddEmployeeDialog.signUp_response)
    (s : session) (form : AddEmployeeDialog.formData) (db : database) :
  let r := AddEmployeeDialog.handleSubmit signUp s form db in
  let response := signUp (String.append (AddEmployeeDialog.username form)
                                        "@company.com")
                    (AddEmployeeDialog.password form)
                    (AddEmployeeDialog.username form) in
  (option_map variant (fst (fst r)) <> Some default
   /\ snd (fst r) = form /\ snd r = db)
  \/ (option_map variant (fst (fst r)) = Some default
      /\ snd (fst r) = AddEmployeeDialog.empty_form
      /\ AddEmployeeDialog.username form <> ""
      /\ AddEmployeeDialog.password form <> ""
      /\ AddEmployeeDialog.full_name form <> ""
      /\ AddEmployeeDialog.authError response = None
      /\ exists user_id,
           AddEmployeeDialog.user response = Some user_id
           /\ Store.insert_profile s db user_id
                (AddEmployeeDialog.username form)
                (AddEmployeeDialog.full_name form)
                (AddEmployeeDialog.title form) employee
                (AddEmployeeDialog.position form)
                (AddEmployeeDialog.details form) = inr (snd r)).
Proof.
  unfold AddEmployeeDialog.handleSubmit.
  destruct (String.eqb_spec (AddEmployeeDialog.username form) "") as [Eu|Eu];
    simpl; [left; repeat split; discriminate|].
  destruct (String.eqb_spec (AddEmployeeDialog.password form) "") as [Ep|Ep];
    simpl; [left; repeat split; discriminate|].
  destruct (String.eqb_spec (AddEmployeeDialog.full_name form) "")
    as [Ef|Ef]; simpl; [left; repeat split; discriminate|].
  destruct (AddEmployeeDialog.authError _) as [message|] eqn:Ha;
    [left; repeat split; discriminate|].
  destruct (AddEmployeeDialog.user _) as [user_id|] eqn:Hu;
    [|left; repeat split; discriminate].
  destruct (Store.insert_profile s db user_id _ _ _ _ _ _) as [e|db'] eqn:Hi;
    simpl; [left; repeat split; discriminate|].
  right. repeat split; auto. exists user_id. now split.
Qed.

(** X22.  What the dialog can create.  A submission that announces success
    has added exactly one profile: an active one with the role employee,
    never a manager, carrying the form's username and full name and the
    user id the sign-up returned; the session that inserted it was a
    manager's; tasks and audit trail are untouched and the form is
    cleared. *)
Theorem addEmployee_creates_active_employee
    (signUp : string -> string -> string -> AddEmployeeDialog.signUp_response)
    (s : session) (form : AddEmployeeDialog.formData) (db : database) :
  let r := AddEmployeeDialog.handleSubmit signUp s form db in
  option_map variant (fst (fst r)) = Some default ->
  exists NEW,
    snd r = mk_database (profiles db ++ [NEW]) (tasks db) (task_history db)
    /\ Profile.role NEW = employee
    /\ Profile.is_active NEW = true
    /\ Profile.username NEW = AddEmployeeDialog.username form
    /\ Profile.full_name NEW = AddEmployeeDialog.full_name form
    /\ Some (Profile.user_id NEW)
       = AddEmployeeDialog.user
           (signUp (String.append (AddEmployeeDialog.username form)
                                  "@company.com")
              (AddEmployeeDialog.password form)
              (AddEmployeeDialog.username form))
    /\ Policy.is_manager s db = true
    /\ snd (fst r) = AddEmployeeDialog.empty_form.
Proof.
  intros r H. subst r.
  destruct (addEmployee_cases signUp s form db)
    as [[Hn _]|(_ & Hf & _ & _ & _ & _ & uid & Hu & Hi)]; [contradiction|].
  apply insert_profile_inv in Hi as (Hm & _ & _ & Hdb).
  eexists. split; [exact Hdb|]. rewrite Hu. now repeat split.
Qed.

Lemma addEmployee_creates_active_employee_witness :
  let db := Sample.db_of [] in
  let r := AddEmployeeDialog.handleSubmit Sample.signUp_ok
             (Sample.as_admin 70) Sample.new_hire db in
  exists NEW,
    snd r = mk_database (profiles db ++ [NEW]) (tasks db) (task_history db)
    /\ Profile.role NEW = employee
    /\ Profile.is_active NEW = true
    /\ Profile.username NEW = "nora"
    /\ Profile.full_name NEW = "Nora Quist"
    /\ Some (Profile.user_id NEW) = Some "u-nora"
    /\ Policy.is_manager (Sample.as_admin 70) db = true
    /\ snd (fst r) = AddEmployeeDialog.empty_form.
Proof.
  intros db.
  apply (addEmployee_creates_active_employee Sample.signUp_ok
           (Sample.as_admin 70) Sample.new_hire db).
  reflexivity.
Defined.

Lemma NoDup_snoc {A : Type} (l : list A) (x : A) :
  NoDup l -> ~ In x l -> NoDup (l ++ [x]).
Proof.
  induction 1 as [|y l Hy Hl IH]; intros Hx; simpl.
  - repeat constructor. intros [].
  - constructor.
    + rewrite in_app_iff. simpl. intros [H|[H|[]]]; [contradiction|].
      apply Hx. now left.
    + apply IH. intros H. apply Hx. now right.
Qed.

(** X23.  Usernames and user ids stay unique.  If no two profiles share a
    username or a user id before a submission, none do after it, whatever
    the form holds and whatever the sign-up answers. *)
Theorem addEmployee_keeps_profiles_unique
    (signUp : string -> string -> string -> AddEmployeeDialog.signUp_response)
    (s : session) (form : AddEmployeeDialog.formData) (db : database) :
  let db' := snd (AddEmployeeDialog.handleSubmit signUp s form db) in
  NoDup (map Profile.username (profiles db)) ->
  NoDup (map Profile.user_id (profiles db)) ->
  NoDup (map Profile.username (profiles db'))
  /\ NoDup (map Profile.user_id (profiles db')).
Proof.
  intros db' Hn Hu. subst db'.
  destruct (addEmployee_cases signUp s form db)
    as [(_ & _ & ->)|(_ & _ & _ & _ & _ & _ & uid & _ & Hi)];
    [now split|].
  apply insert_profile_inv in Hi as (_ & Hnu & Hnn & ->). simpl.
  rewrite !map_app. simpl. split; now apply NoDup_snoc.
Qed.

Lemma addEmployee_keeps_profiles_unique_witness :
  let db := Sample.db_of [] in
  let db' := snd (AddEmployeeDialog.handleSubmit Sample.signUp_ok
                    (Sample.as_admin 70) Sample.new_hire db) in
  NoDup (map Profile.username (profiles db'))
  /\ NoDup (map Profile.user_id (profiles db')).
Proof.
  intros db.
  apply (addEmployee_keeps_profiles_unique Sample.signUp_ok
           (Sample.as_admin 70) Sample.new_hire db).
  - repeat constructor; simpl; intuition discriminate.
  - repeat constructor; simpl; intuition discriminate.
Defined.

(** X24.  When no employee is added.  If a required field (username,
    password, full name) is empty, or the sign-up reports an error, or the
    session that inserts the profile is not a manager's, or the username
    is taken, the submission does not announce success and leaves the
    database and the form exactly as they were. *)
Theorem addEmployee_rejections
    (signUp : string -> string -> string -> AddEmployeeDialog.signUp_response)
    (s : session) (form : AddEmployeeDialog.formData) (db : database) :
  AddEmployeeDialog.username form = ""
  \/ AddEmployeeDialog.password form = ""
  \/ AddEmployeeDialog.full_name form = ""
  \/ AddEmployeeDialog.authError
       (signUp (String.append (AddEmployeeDialog.username form)
                              "@company.com")
          (AddEmployeeDialog.password form)
          (AddEmployeeDialog.username form)) <> None
  \/ Policy.is_manager s db = false
  \/ In (AddEmployeeDialog.username form)
        (map Profile.username (profiles db)) ->
  let r := AddEmployeeDialog.handleSubmit signUp s form db in
  option_map variant (fst (fst r)) <> Some default
  /\ snd (fst r) = form
  /\ snd r = db.
Proof.
  intros Hbad r. subst r.
  destruct (addEmployee_cases signUp s form db)
    as [H|(_ & _ & Hu & Hp & Hf & Ha & uid & _ & Hi)]; [exact H|].
  exfalso. apply insert_profile_inv in Hi as (Hm & _ & Hnn & _).
  destruct Hbad as [E|[E|[E|[E|[E|E]]]]]; try contradiction; congruence.
Qed.

Lemma addEmployee_rejections_witness :
  let db := Sample.db_of [] in
  let r := AddEmployeeDialog.handleSubmit Sample.signUp_ok
             (Sample.as_test 70) Sample.new_hire db in
  option_map variant (fst (fst r)) <> Some default
  /\ snd (fst r) = Sample.new_hire
  /\ snd r = db.
Proof.
  intros db.
  apply (addEmployee_rejections Sample.signUp_ok (Sample.as_test 70)
           Sample.new_hire db).
  right. right. right. right. left. reflexivity.
Defined.

(** ** Reading the audit trail *)

Lemma is_assignee_stable (s : session) (db db' : database)
    (t t' : Task.row) :
  profiles db' = profiles db ->
  Task.assigned_to t' = Task.assigned_to t ->
  Policy.is_assignee s db' t' = Policy.is_assignee s db t.
Proof.
  unfold Policy.is_assignee, Policy.own_profile_id. now intros -> ->.
Qed.

Lemma is_manager_stable (s : session) (db db' : database) :
  profiles db' = profiles db ->
  Policy.is_manager s db' = Policy.is_manager s db.
Proof. unfold Policy.is_manager. now intros ->. Qed.

(** X25.  Whoever changes a status can read the entry it left, and
    strangers cannot.  After an actual transition of a task, the entry
    written is among the entries the caller may select; a user who is
    neither a manager nor the task's assignee does not get it. *)
Theorem written_entry_is_readable
    (s : session) (client_now : timestamptz) (db : database)
    (taskId : uuid) (newStatus : task_status) (t : Task.row) :
  rows_with_id taskId (tasks db) = [t] ->
  Policy.tasks_update s db t = true ->
  Task.status t <> newStatus ->
  let db' := snd (EmployeeDetailsDialog.updateTaskStatus s client_now db
                    taskId newStatus) in
  exists h,
    task_history db' = task_history db ++ [h]
    /\ HistoryEntry.task_id h = taskId
    /\ In h (Store.select_task_history s db')
    /\ forall s2, Policy.is_manager s2 db = false ->
                  Policy.is_assignee s2 db t = false ->
                  ~ In h (Store.select_task_history s2 db').
Proof.
  intros Hrow Hu Hne db'. subst db'.
  destruct (transition_effect s client_now db taskId newStatus t Hrow Hu Hne)
    as (c & Hc & -> & Hrow').
  set (t' := Task.mk (Task.id t) (Task.title t) (Task.description t)
               (Task.assigned_to t) (Task.assigned_by t) newStatus
               (Task.start_date t) (Task.deadline_date t)
               (if task_status_eqb newStatus finished
                then Some (now s) else None)
               (Task.created_at t) (now s)) in *.
  set (rows' := map (step_row s db taskId client_now newStatus) (tasks db))
    in *.
  set (h := HistoryEntry.mk
              (gen_random_uuid s (List.length (task_history db)))
              taskId (Some (Task.status t)) newStatus c (now s)).
  set (db' := mk_database (profiles db) rows' (task_history db ++ [h])).
  assert (Hin' : In t' rows').
  { assert (H : In t' (rows_with_id taskId rows'))
      by (rewrite Hrow'; now left).
    now apply filter_In in H. }
  assert (Hid : Task.id t = taskId) by exact (rows_with_id_singleton _ _ _ Hrow).
  assert (Hsame : forall s0, Policy.is_assignee s0 db' t'
                             = Policy.is_assignee s0 db t)
    by (intros s0; now apply is_assignee_stable).
  exists h. simpl. split; [reflexivity|]. split; [reflexivity|]. split.
  - unfold Store.select_task_history. apply filter_In. simpl. split.
    + apply in_or_app. right. now left.
    + unfold Policy.task_history_select. simpl.
      unfold Policy.tasks_update in Hu.
      rewrite (is_manager_stable s db db' eq_refl).
      destruct (Policy.is_manager s db); [apply orb_true_r|].
      simpl in Hu. rewrite orb_false_r. apply existsb_exists.
      exists t'. split; [exact Hin'|].
      rewrite Hsame, Hu. simpl. rewrite Hid. now rewrite String.eqb_refl.
  - intros s2 Hm Ha Hsel.
    unfold Store.select_task_history in Hsel.
    apply filter_In in Hsel as [_ Hsel].
    unfold Policy.task_history_select in Hsel. simpl in Hsel.
    rewrite (is_manager_stable s2 db db' eq_refl), Hm, orb_false_r in Hsel.
    apply existsb_exists in Hsel as (t0 & Hin0 & H0).
    apply andb_true_iff in H0 as [Hi0 Ha0].
    assert (H : In t0 (rows_with_id taskId rows'))
      by (apply filter_In; now split).
    rewrite Hrow' in H. destruct H as [<-|[]].
    rewrite Hsame in Ha0. congruence.
Qed.

Lemma written_entry_is_readable_witness :
  let t := Sample.task "t1" in_progress None 5 19732 in
  let db := Sample.db_of [t] in
  let db' := snd (EmployeeDetailsDialog.updateTaskStatus (Sample.as_test 100)
                    101 db "t1" finished) in
  exists h,
    task_history db' = task_history db ++ [h]
    /\ HistoryEntry.task_id h = "t1"
    /\ In h (Store.select_task_history (Sample.as_test 100) db')
    /\ forall s2, Policy.is_manager s2 db = false ->
                  Policy.is_assignee s2 db t = false ->
                  ~ In h (Store.select_task_history s2 db').
Proof.
  intros t db.
  apply (written_entry_is_readable (Sample.as_test 100) 101 db "t1"
           finished t).
  - reflexivity.
  - reflexivity.
  - discriminate.
Defined.

(** ** The rates on small and on unfinished task lists *)

Lemma percent_bounded_below_40 : percent_bounded_below 40 = true.
Proof. vm_compute. reflexivity. Qed.

Lemma percent_small_bounds (part whole : nat) :
  (part <= whole)%nat -> (whole < 40)%nat ->
  0 <= percent part whole <= 100.
Proof.
  intros Hp Hw.
  pose proof percent_bounded_below_40 as H. unfold percent_bounded_below in H.
  rewrite forallb_forall in H.
  specialize (H whole). rewrite in_seq in H.
  specialize (H (conj (Nat.le_0_l _) Hw)).
  rewrite forallb_forall in H. specialize (H part).
  rewrite in_seq in H. specialize (H ltac:(lia)).
  apply andb_true_iff in H as [H0 H1].
  apply Z.leb_le in H0, H1. now split.
Qed.

(** X26.  On lists of fewer than forty tasks the two rates are whole
    percentages between 0 and 100, and they are the percentages of exact
    arithmetic rounded half up: the completion rate over all tasks, the
    on-time rate over the finished tasks that carry a completion time. *)
Theorem rates_of_small_lists (tasks : list Task.row) :
  (List.length tasks < 40)%nat ->
  let st := EmployeeDetailsDialog.getTaskStats tasks in
  EmployeeDetailsDialog.completionRate st
  = JS.of_int (completionRate_spec tasks)
  /\ 0 <= completionRate_spec tasks <= 100
  /\ EmployeeDetailsDialog.onTimeRate st = JS.of_int (onTimeRate_spec tasks)
  /\ 0 <= onTimeRate_spec tasks <= 100.
Proof.
  intros H st. subst st.
  assert (Hf : (List.length (filter finished_with_timestamp tasks) < 40)%nat)
    by (eapply Nat.le_lt_trans; [apply filter_length_le|exact H]).
  split; [|split; [|split]].
  - rewrite completionRate_js_percent.
    apply js_percent_small; [apply filter_length_le|exact H].
  - apply percent_small_bounds; [apply filter_length_le|exact H].
  - rewrite onTimeRate_js_percent, js_percent_small;
      [|apply filter_length_le|exact Hf].
    unfold onTimeRate_spec. now rewrite onTimeRate_counts.
  - unfold onTimeRate_spec. rewrite <- onTimeRate_counts.
    apply percent_small_bounds; [apply filter_length_le|exact Hf].
Qed.

Lemma rates_of_small_lists_witness :
  let tasks := [Sample.done_early; Sample.done_late; Sample.open_task] in
  let st := EmployeeDetailsDialog.getTaskStats tasks in
  EmployeeDetailsDialog.completionRate st
  = JS.of_int (completionRate_spec tasks)
  /\ 0 <= completionRate_spec tasks <= 100
  /\ EmployeeDetailsDialog.onTimeRate st = JS.of_int (onTimeRate_spec tasks)
  /\ 0 <= onTimeRate_spec tasks <= 100.
Proof.
  intros tasks.
  apply (rates_of_small_lists tasks). simpl. lia.
Defined.

Lemma js_percent_of_none (whole : nat) :
  js_percent 0 whole = JS.of_int 0.
Proof.
  unfold js_percent, JS.gt, JS.div, JS.mul.
  change (JS.of_nat 0) with (S754_zero false).
  change (JS.of_int 0) with (S754_zero false).
  destruct (JS.of_nat whole) as [b|b| |b m e]; simpl; try reflexivity;
    destruct b; reflexivity.
Qed.

(** X27.  Nothing finished, nothing to show.  On a task list of any length
    on which no task is finished the completion rate is 0, and when no
    finished task was completed by its deadline the on-time rate is 0. *)
Theorem rates_without_progress (tasks : list Task.row) :
  let st := EmployeeDetailsDialog.getTaskStats tasks in
  (Forall (fun t => Task.status t <> finished) tasks ->
   EmployeeDetailsDialog.completionRate st = JS.of_int 0)
  /\ (Forall (fun t => finished_with_timestamp t = true ->
                       completed_by_deadline t = false) tasks ->
      EmployeeDetailsDialog.onTimeRate st = JS.of_int 0).
Proof.
  intros st. subst st. split; intros H.
  - rewrite completionRate_js_percent.
    replace (filter _ tasks) with (@nil Task.row);
      [apply js_percent_of_none|].
    symmetry. induction H as [|t rest Ht _ IH]; simpl; [reflexivity|].
    destruct (task_status_eqb_spec (Task.status t) finished);
      [contradiction|exact IH].
  - rewrite onTimeRate_js_percent.
    replace (filter completed_by_deadline _) with (@nil Task.row);
      [apply js_percent_of_none|].
    symmetry. induction H as [|t rest Ht _ IH]; simpl; [reflexivity|].
    destruct (finished_with_timestamp t); [|exact IH].
    simpl. now rewrite Ht.
Qed.

Lemma rates_without_progress_witness :
  let late := repeat Sample.done_late 50 in
  let idle := repeat Sample.open_task 50 in
  EmployeeDetailsDialog.completionRate
    (EmployeeDetailsDialog.getTaskStats idle) = JS.of_int 0
  /\ EmployeeDetailsDialog.onTimeRate
       (EmployeeDetailsDialog.getTaskStats late) = JS.of_int 0.
Proof.
  intros late idle. split.
  - apply (proj1 (rates_without_progress idle)).
    apply Forall_forall. intros t Hin.
    apply repeat_spec in Hin. subst. discriminate.
  - apply (proj2 (rates_without_progress late)).
    apply Forall_forall. intros t Hin _.
    apply repeat_spec in Hin. subst. reflexivity.
Defined.

(** ** References between the tables *)

Lemma own_profile_in (s : session) (db : database) (c : uuid) :
  Policy.own_profile_id s db = Some c ->
  In c (map Profile.id (profiles db)).
Proof.
  unfold Policy.own_profile_id.
  destruct (auth_uid s) as [u|]; [|discriminate].
  destruct (find _ (profiles db)) as [p|] eqn:Hf; [|discriminate].
  intros [= <-]. apply find_some in Hf as [Hin _]. now apply in_map.
Qed.

Lemma references_in (db : database) (a : uuid) :
  Store.references_profile db a = true ->
  In a (map Profile.id (profiles db)).
Proof.
  unfold Store.references_profile. intros H.
  apply existsb_exists in H as (q & Hq & E).
  apply String.eqb_eq in E. subst. now apply in_map.
Qed.

Lemma logged_references (s : session) (db : database) (taskId : uuid)
    (newStatus : task_status) (rows : list Task.row) :
  forall n,
    Forall (fun h => In (HistoryEntry.task_id h) (map Task.id rows)
                     /\ In (HistoryEntry.changed_by h)
                           (map Profile.id (profiles db)))
           (logged s db taskId newStatus rows n).
Proof.
  induction rows as [|r rest IH]; intros n; simpl; [constructor|].
  assert (Hrest : forall n,
             Forall (fun h => (Task.id r = HistoryEntry.task_id h
                               \/ In (HistoryEntry.task_id h)
                                     (map Task.id rest))
                              /\ In (HistoryEntry.changed_by h)
                                    (map Profile.id (profiles db)))
                    (logged s db taskId newStatus rest n)).
  { intros k. eapply Forall_impl; [|apply IH]. intros h [H1 H2]. auto. }
  destruct (Store.targets s db taskId r) eqn:Ht; simpl; [|apply Hrest].
  destruct (negb (task_status_eqb (Task.status r) newStatus));
    [|apply Hrest].
  constructor; [|apply Hrest].
  apply targets_update in Ht as [_ Hu].
  destruct (updater_has_profile s db r Hu) as [c Hc].
  simpl. rewrite Hc. split; [now left|now apply (own_profile_in s)].
Qed.

Lemma step_row_assigned_by (s : session) (db : database) (taskId : uuid)
    (client_now : timestamptz) (newStatus : task_status) (r : Task.row) :
  Task.assigned_by (step_row s db taskId client_now newStatus r)
  = Task.assigned_by r.
Proof. unfold step_row. now destruct (Store.targets s db taskId r). Qed.

Lemma map_id_step_row (s : session) (db : database) (taskId : uuid)
    (client_now : timestamptz) (newStatus : task_status)
    (rows : list Task.row) :
  map Task.id (map (step_row s db taskId client_now newStatus) rows)
  = map Task.id rows.
Proof.
  rewrite map_map. apply map_ext. intros r.
  apply (step_row_id s db taskId client_now newStatus).
Qed.

Lemma updateTaskStatus_keeps_references (s : session)
    (client_now : timestamptz) (db : database) (taskId : uuid)
    (newStatus : task_status) :
  referential_integrity db ->
  referential_integrity
    (snd (EmployeeDetailsDialog.updateTaskStatus s client_now db taskId
            newStatus)).
Proof.
  intros [Ht Hh]. rewrite updateTaskStatus_db.
  unfold referential_integrity. simpl. split.
  - apply Forall_forall. intros t' Hin.
    apply in_map_iff in Hin as (r & <- & Hr).
    rewrite (step_row_assigned_to s db taskId client_now newStatus),
      step_row_assigned_by.
    rewrite Forall_forall in Ht. now apply Ht.
  - rewrite map_id_step_row. apply Forall_app. split; [exact Hh|].
    apply logged_references.
Qed.

Lemma addTask_keeps_references (s : session) (profile : option Profile.row)
    (form : AddTaskDialog.formData) (db : database) :
  referential_integrity db ->
  referential_integrity (snd (AddTaskDialog.handleSubmit s profile form db)).
Proof.
  intros [Ht Hh].
  destruct (variant (fst (fst (AddTaskDialog.handleSubmit s profile form db))))
    eqn:Hv.
  - apply handleSubmit_success_inv in Hv
      as (p & start & deadline & -> & H1 & H2 & H3 & H4 & H5 & H6 & H7 & H8).
    rewrite (handleSubmit_succeeds s p form db start deadline) by assumption.
    unfold referential_integrity. simpl. split.
    + apply Forall_app. split; [exact Ht|].
      constructor; [|constructor]. simpl.
      split; now apply references_in.
    + eapply Forall_impl; [|exact Hh]. intros h [Ha Hb].
      split; [|exact Hb]. rewrite map_app. apply in_or_app. now left.
  - destruct (handleSubmit_cases s profile form db) as [[_ ->]|[Hd _]];
      [now split|congruence].
Qed.

Lemma addEmployee_keeps_references
    (signUp : string -> string -> string -> AddEmployeeDialog.signUp_response)
    (s : session) (form : AddEmployeeDialog.formData) (db : database) :
  referential_integrity db ->
  referential_integrity
    (snd (AddEmployeeDialog.handleSubmit signUp s form db)).
Proof.
  intros [Ht Hh].
  destruct (addEmployee_cases signUp s form db)
    as [(_ & _ & ->)|(_ & _ & _ & _ & _ & _ & uid & _ & Hi)];
    [now split|].
  apply insert_profile_inv in Hi as (_ & _ & _ & ->).
  unfold referential_integrity. simpl. rewrite map_app. split.
  - eapply Forall_impl; [|exact Ht]. intros t [Ha Hb].
    split; apply in_or_app; now left.
  - eapply Forall_impl; [|exact Hh]. intros h [Ha Hb].
    split; [exact Ha|apply in_or_app; now left].
Qed.

(** X28.  The references of the schema hold without being checked again.
    If every task's assignee and assigner are profiles and every audit
    entry's task and author are a task and a profile, this is still so
    after a status update, after a task submission and after an employee
    submission, whatever their arguments and outcome.  In particular the
    entries the trigger writes always name an existing task and the
    profile of a real user. *)
Theorem referential_integrity_is_kept (db : database) :
  referential_integrity db ->
  (forall s client_now taskId newStatus,
     referential_integrity
       (snd (EmployeeDetailsDialog.updateTaskStatus s client_now db taskId
               newStatus)))
  /\ (forall s profile form,
        referential_integrity
          (snd (AddTaskDialog.handleSubmit s profile form db)))
  /\ (forall signUp s form,
        referential_integrity
          (snd (AddEmployeeDialog.handleSubmit signUp s form db))).
Proof.
  intros H. split; [|split]; intros.
  - apply updateTaskStatus_keeps_references. exact H.
  - apply addTask_keeps_references. exact H.
  - apply addEmployee_keeps_references. exact H.
Qed.

Lemma referential_integrity_is_kept_witness :
  let db := Sample.db_of [Sample.task "t1" in_progress None 5 19732] in
  referential_integrity
    (snd (EmployeeDetailsDialog.updateTaskStatus (Sample.as_test 100) 101 db
            "t1" finished))
  /\ referential_integrity
       (snd (AddTaskDialog.handleSubmit (Sample.as_admin 50)
               (Some Sample.admin) (Sample.report_form "p-idle") db))
  /\ referential_integrity
       (snd (AddEmployeeDialog.handleSubmit Sample.signUp_ok
               (Sample.as_admin 70) Sample.new_hire db)).
Proof.
  intros db.
  assert (H : referential_integrity db).
  { split; [|constructor].
    constructor; [|constructor]. simpl.
    split; [right; left; reflexivity|left; reflexivity]. }
  destruct (referential_integrity_is_kept db H) as (H1 & H2 & H3).
  exact (conj (H1 _ _ _ _) (conj (H2 _ _ _) (H3 _ _ _))).
Defined.
